(** * temp_logger: the rolling-window pipeline of [temp.py]

    A shallow embedding of [temp.py] (serial sensor logger with four live
    charts) and the properties of its data pipeline.

    Modelling conventions.
    - A Python [float] is a real number ([R]).  Rounding, overflow and the
      non-finite values [inf] and [nan] are outside this model, and with
      them the two exceptions only they give rise to: the [OverflowError] of
      [math.exp] and the [ValueError] of [set_ylim] on a limit that is not
      finite.
    - A [datetime] is an integer count of microseconds ([Z]), a [timedelta]
      likewise; [datetime.now()] is an input of the handler that calls it.
    - A [deque(maxlen=n)] is its [maxlen] together with the list of its items,
      oldest first.
    - An uncaught Python exception is a [Raise] result next to the state the
      handler had reached when it was raised; a run of the event loop goes on
      from that state, so what holds along every run also holds when the
      process stops at the exception.
    - The builtin [float] is a parameter of the handlers; [decimal_float]
      instantiates it on decimal literals.
    - The matplotlib axes are the limits last given to [set_xlim] and
      [set_ylim]; drawing and printing have no effect on this state. *)

From Stdlib Require Import Reals ZArith String Ascii List Bool Lia Lra Sorted.
Import ListNotations.

Local Open Scope Z_scope.

(** ** Python builtins used by the program *)

Inductive exn : Type :=
| ValueError
| ZeroDivisionError
| UnicodeDecodeError.

Inductive result (A : Type) : Type :=
| Ok (a : A)
| Raise (e : exn).

Arguments Ok {A} a.
Arguments Raise {A} e.

Definition rbind {A B : Type} (r : result A) (k : A -> result B) : result B :=
  match r with
  | Ok a => k a
  | Raise e => Raise e
  end.

Declare Scope result_scope.
Delimit Scope result_scope with result.
Notation "x <- r ;; k" := (rbind r (fun x => k))
  (at level 61, r at next level, right associativity) : result_scope.

Module Py.

(** [x / y] on floats: a zero divisor raises. *)
Definition div (x y : R) : result R :=
  if Req_dec_T y 0%R then Raise ZeroDivisionError else Ok (x / y)%R.

(** [math.log(x)]: a domain error outside the positive numbers. *)
Definition log (x : R) : result R :=
  if Rlt_dec 0%R x then Ok (ln x) else Raise ValueError.

(** [min(a, b)] and [max(a, b)]: the first argument wins a tie. *)
Definition min2 (a b : R) : R := if Rlt_dec b a then b else a.
Definition max2 (a b : R) : R := if Rgt_dec b a then b else a.

(** [min(xs)] and [max(xs)]: the first item, then one pass over the rest;
    an empty argument raises. *)
Definition min (xs : list R) : result R :=
  match xs with
  | [] => Raise ValueError
  | x :: rest => Ok (fold_left min2 rest x)
  end.

Definition max (xs : list R) : result R :=
  match xs with
  | [] => Raise ValueError
  | x :: rest => Ok (fold_left max2 rest x)
  end.

(** [sum(xs)], which starts from 0 and adds from the left. *)
Definition sum (xs : list R) : R := fold_left Rplus xs 0%R.

(** [zip(xs, ys)] stops at the shorter argument. *)
Definition zip {A B : Type} (xs : list A) (ys : list B) : list (A * B) :=
  combine xs ys.

(** Whitespace as [str.strip()] sees it, on ASCII text. *)
Definition isspace (c : ascii) : bool :=
  let n := nat_of_ascii c in
  ((9 <=? n) && (n <=? 13) || (28 <=? n) && (n <=? 32))%nat.

Fixpoint lstrip (s : string) : string :=
  match s with
  | String c rest => if isspace c then lstrip rest else s
  | EmptyString => EmptyString
  end.

Fixpoint rstrip (s : string) : string :=
  match s with
  | EmptyString => EmptyString
  | String c rest =>
      match rstrip rest with
      | EmptyString => if isspace c then EmptyString else String c EmptyString
      | kept => String c kept
      end
  end.

Definition strip (s : string) : string := rstrip (lstrip s).

(** [s.split(',')]: one more part than there are commas. *)
Fixpoint split_comma (s : string) : list string :=
  match s with
  | EmptyString => [EmptyString]
  | String c rest =>
      if Ascii.eqb c ","%char
      then EmptyString :: split_comma rest
      else match split_comma rest with
           | part :: parts => String c part :: parts
           | [] => [String c EmptyString]
           end
  end.

End Py.

(** ** [collections.deque] with a [maxlen] *)

Record deque (A : Type) : Type := mk_deque {
  maxlen : nat;
  items : list A
}.

Arguments mk_deque {A} maxlen items.
Arguments maxlen {A} d.
Arguments items {A} d.

Definition new_deque {A : Type} (n : nat) : deque A := mk_deque n [].

(** [d.append(x)]: a full deque drops its leftmost item. *)
Definition deque_append {A : Type} (d : deque A) (x : A) : deque A :=
  if (length (items d) <? maxlen d)%nat
  then mk_deque (maxlen d) (items d ++ [x])
  else mk_deque (maxlen d) (tl (items d ++ [x])).

Definition deque_len {A : Type} (d : deque A) : nat := length (items d).

(** ** Time *)

Abbreviation datetime := Z (only parsing).
Abbreviation timedelta := Z (only parsing).

Definition td_seconds (n : Z) : timedelta := n * 1000000.
Definition td_minutes (n : Z) : timedelta := td_seconds (n * 60).
Definition td_hours (n : Z) : timedelta := td_minutes (n * 60).

(** ** The two physical quantities *)

Local Open Scope result_scope.

Definition calculate_dew_point (temp rh : R) : result R :=
  let a := 17.27%R in
  let b := 237.7%R in
  q <- Py.div (a * temp) (b + temp) ;;
  l <- Py.log (rh / 100.0) ;;
  let alpha := (q + l)%R in
  Py.div (b * alpha) (a - alpha).

Definition calculate_absolute_humidity (temp rh : R) : result R :=
  q <- Py.div (17.67 * temp) (temp + 243.5) ;;
  Py.div (6.112 * exp q * rh * 2.1674) (273.15 + temp).

(** ** The application state *)

Record axis : Type := mk_axis {
  xlim : option (datetime * datetime);
  ylim : option (R * R)
}.

Record InteractivePlot : Type := mk_plot {
  max_points : nat;
  timestamps : deque datetime;
  temperatures : deque R;
  temp_avg : deque R;
  rel_humidities : deque R;
  abs_humidities : deque R;
  dew_points : deque R;
  start_time : option datetime;
  time_range : timedelta;
  ax1 : axis;
  ax2 : axis;
  ax3 : axis;
  ax4 : axis
}.

Definition set_xlim (lo hi : datetime) (ax : axis) : axis :=
  mk_axis (Some (lo, hi)) (ylim ax).

Definition set_ylim (lo hi : R) (ax : axis) : axis :=
  mk_axis (xlim ax) (Some (lo, hi)).

Definition with_time_range (d : timedelta) (self : InteractivePlot) : InteractivePlot :=
  mk_plot (max_points self) (timestamps self) (temperatures self) (temp_avg self)
    (rel_humidities self) (abs_humidities self) (dew_points self)
    (start_time self) d (ax1 self) (ax2 self) (ax3 self) (ax4 self).

Definition with_start_time (t : option datetime) (self : InteractivePlot) : InteractivePlot :=
  mk_plot (max_points self) (timestamps self) (temperatures self) (temp_avg self)
    (rel_humidities self) (abs_humidities self) (dew_points self)
    t (time_range self) (ax1 self) (ax2 self) (ax3 self) (ax4 self).

Definition with_temp_avg (d : deque R) (self : InteractivePlot) : InteractivePlot :=
  mk_plot (max_points self) (timestamps self) (temperatures self) d
    (rel_humidities self) (abs_humidities self) (dew_points self)
    (start_time self) (time_range self) (ax1 self) (ax2 self) (ax3 self) (ax4 self).

Definition with_readings (ts : deque datetime) (te rh ah dp : deque R)
    (self : InteractivePlot) : InteractivePlot :=
  mk_plot (max_points self) ts te (temp_avg self) rh ah dp
    (start_time self) (time_range self) (ax1 self) (ax2 self) (ax3 self) (ax4 self).

Definition with_axes (f1 f2 f3 f4 : axis -> axis) (self : InteractivePlot) : InteractivePlot :=
  mk_plot (max_points self) (timestamps self) (temperatures self) (temp_avg self)
    (rel_humidities self) (abs_humidities self) (dew_points self)
    (start_time self) (time_range self)
    (f1 (ax1 self)) (f2 (ax2 self)) (f3 (ax3 self)) (f4 (ax4 self)).

Definition keep (ax : axis) : axis := ax.

(** The object [__init__] leaves behind: empty deques of capacity
    [4 * 60 * 60], the four-hour range, axes whose limits were never set. *)
Definition init : InteractivePlot :=
  let n := (4 * 60 * 60)%nat in
  let fresh := mk_axis None None in
  mk_plot n (new_deque n) (new_deque n) (new_deque n) (new_deque n)
    (new_deque n) (new_deque n) None (td_hours 4) fresh fresh fresh fresh.

(** ** Handlers: state and exceptions *)

Definition M (A : Type) : Type := InteractivePlot -> result A * InteractivePlot.

Definition ret {A : Type} (a : A) : M A := fun self => (Ok a, self).

Definition bind {A B : Type} (m : M A) (k : A -> M B) : M B :=
  fun self =>
    match m self with
    | (Ok a, self') => k a self'
    | (Raise e, self') => (Raise e, self')
    end.

Definition lift {A : Type} (r : result A) : M A := fun self => (r, self).

Definition get : M InteractivePlot := fun self => (Ok self, self).

Definition modify (f : InteractivePlot -> InteractivePlot) : M unit :=
  fun self => (Ok tt, f self).

Declare Scope prog_scope.
Delimit Scope prog_scope with prog.
Notation "x <- m ;; k" := (bind m (fun x => k))
  (at level 61, m at next level, right associativity) : prog_scope.
Notation "m ;; k" := (bind m (fun _ => k))
  (at level 61, right associativity) : prog_scope.

Definition nonempty {A : Type} (xs : list A) : bool :=
  match xs with
  | [] => false
  | _ :: _ => true
  end.

(** [[v for v, ts in zip(series, self.timestamps) if ts >= start]] *)
Definition visible {A : Type} (series : deque A) (stamps : deque datetime)
    (start : datetime) : list A :=
  map fst (filter (fun p => start <=? snd p) (Py.zip (items series) (items stamps))).

Definition visible_timestamps (self : InteractivePlot) (start : datetime) : list datetime :=
  filter (fun t => start <=? t) (items (timestamps self)).

Local Open Scope prog_scope.

Definition adjust_temp_axis (visible_temps visible_temp_avgs : list R) : M unit :=
  if nonempty visible_temps then
    lo1 <- lift (Py.min visible_temps) ;;
    lo2 <- lift (Py.min visible_temp_avgs) ;;
    let temp_min := Py.min2 lo1 lo2 in
    hi1 <- lift (Py.max visible_temps) ;;
    hi2 <- lift (Py.max visible_temp_avgs) ;;
    let temp_max := Py.max2 hi1 hi2 in
    modify (with_axes (set_ylim (temp_min - 1) (temp_max + 1)) keep keep keep)
  else ret tt.

Definition adjust_rh_axis (visible_rhs : list R) : M unit :=
  if nonempty visible_rhs then
    rh_min <- lift (Py.min visible_rhs) ;;
    rh_max <- lift (Py.max visible_rhs) ;;
    modify (with_axes keep
              (set_ylim (Py.max2 0 (rh_min - 5)) (Py.min2 100 (rh_max + 5)))
              keep keep)
  else ret tt.

Definition adjust_ah_axis (visible_ahs : list R) : M unit :=
  if nonempty visible_ahs then
    ah_min <- lift (Py.min visible_ahs) ;;
    ah_max <- lift (Py.max visible_ahs) ;;
    modify (with_axes keep keep (set_ylim (ah_min - 0.5) (ah_max + 0.5)) keep)
  else ret tt.

Definition adjust_dp_axis (visible_dps : list R) : M unit :=
  if nonempty visible_dps then
    dp_min <- lift (Py.min visible_dps) ;;
    dp_max <- lift (Py.max visible_dps) ;;
    modify (with_axes keep keep keep (set_ylim (dp_min - 1) (dp_max + 1)))
  else ret tt.

(** [current_time] is what [datetime.now()] returns inside the call. *)
Definition adjust_y_axis_ranges (current_time : datetime) : M unit :=
  self <- get ;;
  let start := current_time - time_range self in
  let visible_temps := visible (temperatures self) (timestamps self) start in
  let visible_temp_avgs := visible (temp_avg self) (timestamps self) start in
  let visible_rhs := visible (rel_humidities self) (timestamps self) start in
  let visible_ahs := visible (abs_humidities self) (timestamps self) start in
  let visible_dps := visible (dew_points self) (timestamps self) start in
  adjust_temp_axis visible_temps visible_temp_avgs ;;
  adjust_rh_axis visible_rhs ;;
  adjust_ah_axis visible_ahs ;;
  adjust_dp_axis visible_dps.

Definition index_time_range (index : Z) : timedelta :=
  if index =? 0 then td_minutes 1
  else if index =? 1 then td_minutes 5
  else if index =? 2 then td_minutes 20
  else if index =? 3 then td_hours 1
  else td_hours 4.

(** [current_time] is the clock read in the body, [adjust_time] the one read
    by the nested [adjust_y_axis_ranges]. *)
Definition update_time_range (index : Z) (current_time adjust_time : datetime) : M unit :=
  modify (with_time_range (index_time_range index)) ;;
  self <- get ;;
  let lims := set_xlim (current_time - time_range self) current_time in
  modify (with_axes lims lims lims lims) ;;
  adjust_y_axis_ranges adjust_time.

(** ** The timer tick *)

(** What the serial port holds when the timer fires: nothing
    ([in_waiting = 0]), a line that is not UTF-8, or the decoded text of one
    line. *)
Inductive serial_input : Type :=
| NoData
| Undecodable
| Line (text : string).

Definition float_of (parsed : option R) : result R :=
  match parsed with
  | Some x => Ok x
  | None => Raise ValueError
  end.

(** Lines 111 to 115: the five appends. *)
Definition push_reading (current_time : datetime) (temp rh ah dp : R) : M unit :=
  modify (fun self =>
    with_readings
      (deque_append (timestamps self) current_time)
      (deque_append (temperatures self) temp)
      (deque_append (rel_humidities self) rh)
      (deque_append (abs_humidities self) ah)
      (deque_append (dew_points self) dp)
      self).

(** [[t for t, ts in zip(self.temperatures, self.timestamps) if ts > since]] *)
Definition recent_temps (self : InteractivePlot) (since : datetime) : list R :=
  map fst (filter (fun p => since <? snd p)
             (Py.zip (items (temperatures self)) (items (timestamps self)))).

(** Lines 117 to 124: the value appended to [temp_avg], read off the state
    that already holds the new reading. *)
Definition moving_average (self : InteractivePlot) (current_time : datetime) (temp : R) : R :=
  let twenty_sec_ago := current_time - td_seconds 20 in
  let recent := recent_temps self twenty_sec_ago in
  if nonempty recent
  then (Py.sum recent / INR (length recent))%R
  else temp.

Definition push_average (current_time : datetime) (temp : R) : M unit :=
  modify (fun self =>
    with_temp_avg (deque_append (temp_avg self) (moving_average self current_time temp)) self).

Definition note_start_time (current_time : datetime) : M unit :=
  modify (fun self =>
    match start_time self with
    | None => with_start_time (Some current_time) self
    | Some _ => self
    end).

(** ** Decimal literals

    An instance of [float] for the sample inputs: the decimal literals it
    accepts, with optional sign, digits with single underscores between
    them, optional point and fraction, optional exponent, and the six ASCII
    blanks [float] itself strips (tab to carriage return, and space) allowed
    around the whole.  It stands for [float] on the literals whose value is
    a finite double; [nan], [inf] and literals beyond the range of a double,
    which [float] turns into values that are not real numbers, are not in
    its domain of use. *)

Definition float_isspace (c : ascii) : bool :=
  let n := nat_of_ascii c in
  ((9 <=? n) && (n <=? 13) || (n =? 32))%nat.

Fixpoint float_lstrip (s : string) : string :=
  match s with
  | String c rest => if float_isspace c then float_lstrip rest else s
  | EmptyString => EmptyString
  end.

Fixpoint float_rstrip (s : string) : string :=
  match s with
  | EmptyString => EmptyString
  | String c rest =>
      match float_rstrip rest with
      | EmptyString => if float_isspace c then EmptyString else String c EmptyString
      | kept => String c kept
      end
  end.

Definition digit_of (c : ascii) : option Z :=
  let n := nat_of_ascii c in
  if ((48 <=? n) && (n <=? 57))%nat then Some (Z.of_nat n - 48) else None.

Fixpoint digitpart (s : string) : list Z * string :=
  match s with
  | String c rest =>
      match digit_of c with
      | Some d =>
          match rest with
          | String "_" rest2 =>
              match digitpart rest2 with
              | ([], _) => ([d], rest)
              | (ds, r) => (d :: ds, r)
              end
          | _ => let (ds, r) := digitpart rest in (d :: ds, r)
          end
      | None => ([], s)
      end
  | EmptyString => ([], s)
  end.

Definition digits_value (ds : list Z) : Z :=
  fold_left (fun acc d => acc * 10 + d) ds 0.

Definition read_sign (s : string) : bool * string :=
  match s with
  | String "-" rest => (true, rest)
  | String "+" rest => (false, rest)
  | _ => (false, s)
  end.

(** The exponent part, 0 when there is none; [None] when an [e] is not
    followed by digits or something is left over. *)
Definition read_exponent (s : string) : option Z :=
  match s with
  | EmptyString => Some 0
  | String c rest =>
      if (Ascii.eqb c "e" || Ascii.eqb c "E")%bool then
        let (neg, rest1) := read_sign rest in
        match digitpart rest1 with
        | ([], _) => None
        | (ds, EmptyString) => Some (if neg then - digits_value ds else digits_value ds)
        | (_, String _ _) => None
        end
      else None
  end.

(** Sign, mantissa and decimal exponent of a literal. *)
Definition parse_decimal (s : string) : option (bool * Z * Z) :=
  let (neg, body) := read_sign (float_rstrip (float_lstrip s)) in
  let (int_ds, rest) := digitpart body in
  let (frac_ds, rest') :=
    match rest with
    | String "." after => digitpart after
    | _ => ([], rest)
    end in
  match int_ds ++ frac_ds with
  | [] => None
  | ds =>
      match read_exponent rest' with
      | Some e => Some (neg, digits_value ds, e - Z.of_nat (length frac_ds))
      | None => None
      end
  end.

Definition decimal_value (lit : bool * Z * Z) : R :=
  let '(neg, m, e) := lit in
  let x := if 0 <=? e then IZR (m * 10 ^ e) else (IZR m / IZR (10 ^ (- e)))%R in
  if neg then (- x)%R else x.

Definition decimal_float (s : string) : option R :=
  option_map decimal_value (parse_decimal s).

(** ** Reference definitions for the statements *)

(** The last [n] items of a list. *)
Definition lastn {A : Type} (n : nat) (xs : list A) : list A :=
  skipn (length xs - n) xs.

(** Least and greatest item of a list of reals (0 for the empty list). *)
Definition list_min (xs : list R) : R :=
  match xs with
  | [] => 0%R
  | x :: rest => fold_right Rmin x rest
  end.

Definition list_max (xs : list R) : R :=
  match xs with
  | [] => 0%R
  | x :: rest => fold_right Rmax x rest
  end.

(** The selector's five options, in order. *)
Definition selector_durations : list timedelta :=
  [td_minutes 1; td_minutes 5; td_minutes 20; td_hours 1; td_hours 4].

(** The six series hold equally many items. *)
Definition aligned (self : InteractivePlot) : Prop :=
  let n := deque_len (timestamps self) in
  deque_len (temperatures self) = n /\
  deque_len (temp_avg self) = n /\
  deque_len (rel_humidities self) = n /\
  deque_len (abs_humidities self) = n /\
  deque_len (dew_points self) = n.

(** Every deque still has the capacity [__init__] gave it. *)
Definition capacities (self : InteractivePlot) : Prop :=
  maxlen (timestamps self) = max_points self /\
  maxlen (temperatures self) = max_points self /\
  maxlen (temp_avg self) = max_points self /\
  maxlen (rel_humidities self) = max_points self /\
  maxlen (abs_humidities self) = max_points self /\
  maxlen (dew_points self) = max_points self /\
  max_points self = (4 * 60 * 60)%nat.

Section Handlers.

(** The builtin [float] on a field of the line: [Some x] when it returns the
    number [x], [None] when it raises [ValueError]. *)
Variable py_float : string -> option R.

(** [current_time] is the clock read at line 104, [adjust_time] the one read
    by the nested [adjust_y_axis_ranges]. *)
Definition update_plot (input : serial_input) (current_time adjust_time : datetime) : M unit :=
  match input with
  | NoData => ret tt
  | Undecodable => lift (Raise UnicodeDecodeError)
  | Line text =>
      let line := Py.strip text in
      let parts := Py.split_comma line in
      match parts with
      | [timestamp; temp; rh; _] =>
          temp <- lift (float_of (py_float temp)) ;;
          rh <- lift (float_of (py_float rh)) ;;
          note_start_time current_time ;;
          ah <- lift (calculate_absolute_humidity temp rh) ;;
          dp <- lift (calculate_dew_point temp rh) ;;
          push_reading current_time temp rh ah dp ;;
          push_average current_time temp ;;
          adjust_y_axis_ranges adjust_time ;;
          self <- get ;;
          let lims := set_xlim (current_time - time_range self) current_time in
          modify (with_axes lims lims lims lims)
      | _ => ret tt
      end
  end.

(** ** Runs of the event loop *)

Inductive event : Type :=
| Tick (input : serial_input) (current_time adjust_time : datetime)
| Select (index : Z) (current_time adjust_time : datetime).

Definition handle (ev : event) : M unit :=
  match ev with
  | Tick input t1 t2 => update_plot input t1 t2
  | Select index t1 t2 => update_time_range index t1 t2
  end.

(** The state a handler leaves, whether it returned or raised. *)
Definition step (self : InteractivePlot) (ev : event) : InteractivePlot :=
  snd (handle ev self).

Definition run (evs : list event) : InteractivePlot := fold_left step evs init.

Definition reachable (self : InteractivePlot) : Prop :=
  exists evs, self = run evs.

(** The reading a tick appends, if it gets as far as line 111. *)
Definition tick_reading (input : serial_input) : option (R * R * R * R) :=
  match input with
  | Line text =>
      match Py.split_comma (Py.strip text) with
      | [_; temp; rh; _] =>
          match py_float temp, py_float rh with
          | Some temp, Some rh =>
              match calculate_absolute_humidity temp rh, calculate_dew_point temp rh with
              | Ok ah, Ok dp => Some (temp, rh, ah, dp)
              | _, _ => None
              end
          | _, _ => None
          end
      | _ => None
      end
  | _ => None
  end.

(** The rows appended along a sequence of events, oldest first, each with
    the clock value stored with it. *)
Fixpoint appended (evs : list event) : list (datetime * (R * R * R * R)) :=
  match evs with
  | [] => []
  | Tick input t1 _ :: rest =>
      match tick_reading input with
      | Some r => (t1, r) :: appended rest
      | None => appended rest
      end
  | Select _ _ _ :: rest => appended rest
  end.

(** The moving averages appended along a sequence of events that starts in
    [self], oldest first. *)
Fixpoint appended_avgs (self : InteractivePlot) (evs : list event) : list R :=
  match evs with
  | [] => []
  | ev :: rest =>
      let after := step self ev in
      match ev with
      | Tick input t1 _ =>
          match tick_reading input with
          | Some (temp, rh, ah, dp) =>
              moving_average (snd (push_reading t1 temp rh ah dp self)) t1 temp
                :: appended_avgs after rest
          | None => appended_avgs after rest
          end
      | Select _ _ _ => appended_avgs after rest
      end
  end.


(** ** Invariants of the state *)

(** Everything in the state but the axes and [start_time]. *)
Definition data (self : InteractivePlot) :=
  (max_points self, time_range self, timestamps self, temperatures self,
   temp_avg self, rel_humidities self, abs_humidities self, dew_points self).

Definition keeps_data {A : Type} (m : M A) : Prop :=
  forall self, data (snd (m self)) = data self.

(** The state after lines 111 to 124. *)
Definition after_append (current_time : datetime) (r : R * R * R * R)
    (self : InteractivePlot) : InteractivePlot :=
  let '(temp, rh, ah, dp) := r in
  snd (push_average current_time temp (snd (push_reading current_time temp rh ah dp self))).

Definition valid_range (self : InteractivePlot) : Prop :=
  In (time_range self) selector_durations.

Definition invariant (self : InteractivePlot) : Prop :=
  aligned self /\ capacities self /\ valid_range self.

(** ** The axis ranges of section 4.4, as functions of the visible items *)

Definition temp_limits (temps avgs : list R) : axis -> axis :=
  if nonempty temps
  then set_ylim (list_min (temps ++ avgs) - 1) (list_max (temps ++ avgs) + 1)
  else keep.

Definition rh_limits (rhs : list R) : axis -> axis :=
  if nonempty rhs
  then set_ylim (Rmax 0 (list_min rhs - 5)) (Rmin 100 (list_max rhs + 5))
  else keep.

Definition ah_limits (ahs : list R) : axis -> axis :=
  if nonempty ahs
  then set_ylim (list_min ahs - 0.5) (list_max ahs + 0.5)
  else keep.

Definition dp_limits (dps : list R) : axis -> axis :=
  if nonempty dps
  then set_ylim (list_min dps - 1) (list_max dps + 1)
  else keep.

Definition rescaled (start : datetime) (self : InteractivePlot) : InteractivePlot :=
  with_axes
    (temp_limits (visible (temperatures self) (timestamps self) start)
                 (visible (temp_avg self) (timestamps self) start))
    (rh_limits (visible (rel_humidities self) (timestamps self) start))
    (ah_limits (visible (abs_humidities self) (timestamps self) start))
    (dp_limits (visible (dew_points self) (timestamps self) start))
    self.

(** [m] is an item of [xs] below every item of [xs]. *)
Definition least (m : R) (xs : list R) : Prop :=
  In m xs /\ forall y, In y xs -> (m <= y)%R.

Definition greatest (m : R) (xs : list R) : Prop :=
  In m xs /\ forall y, In y xs -> (y <= m)%R.

(** The columns of an appended row. *)
Definition row_time (row : datetime * (R * R * R * R)) : datetime := fst row.
Definition row_temp (row : datetime * (R * R * R * R)) : R :=
  let '(_, (temp, _, _, _)) := row in temp.
Definition row_rh (row : datetime * (R * R * R * R)) : R :=
  let '(_, (_, rh, _, _)) := row in rh.
Definition row_ah (row : datetime * (R * R * R * R)) : R :=
  let '(_, (_, _, ah, _)) := row in ah.
Definition row_dp (row : datetime * (R * R * R * R)) : R :=
  let '(_, (_, _, _, dp)) := row in dp.

(** The limits of the shared x axis, as the four [set_xlim] calls leave them. *)
Definition xlims (self : InteractivePlot) :=
  (xlim (ax1 self), xlim (ax2 self), xlim (ax3 self), xlim (ax4 self)).

Definition keeps_xlims {A : Type} (m : M A) : Prop :=
  forall self, xlims (snd (m self)) = xlims self.

(** The points a chart shows for [series] at call time [T], paired with their
    timestamps, are the buffered points not older than [T - time_range]. *)
Definition window_exact {A : Type} (self : InteractivePlot) (T : datetime)
    (series : deque A) : Prop :=
  let start := T - time_range self in
  let shown := combine (visible series (timestamps self) start)
                       (visible_timestamps self start) in
  let buffered := Py.zip (items series) (items (timestamps self)) in
  shown = filter (fun p => start <=? snd p) buffered /\
  (forall p, In p shown <-> In p buffered /\ T - time_range self <= snd p) /\
  (forall p, In p buffered -> T < snd p -> In p shown).

(** ** Sample data *)

Definition malformed_line : string := "12:00:00,abc,55,x".
Definition sample_line : string := "12:00:00,21.5,60.0,0".

Definition sample_ah : R :=
  (6.112 * exp ((17.67 * 21.5) / (21.5 + 243.5)) * 60.0 * 2.1674 / (273.15 + 21.5))%R.

Definition sample_alpha : R :=
  ((17.27 * 21.5) / (237.7 + 21.5) + ln (60.0 / 100.0))%R.

Definition sample_dp : R :=
  ((237.7 * sample_alpha) / (17.27 - sample_alpha))%R.

(** Three readings taken 30 and 60 seconds apart, each its own moving
    average, shown with the one-minute range. *)
Definition sample_plot : InteractivePlot :=
  let n := (4 * 60 * 60)%nat in
  let fresh := mk_axis None None in
  mk_plot n
    (mk_deque n [0; td_seconds 30; td_seconds 90])
    (mk_deque n [20; 22; 21]%R)
    (mk_deque n [20; 22; 21]%R)
    (mk_deque n [55; 56; 57]%R)
    (mk_deque n [9.5; 10.9; 10.4]%R)
    (mk_deque n [10.7; 12.8; 12.2]%R)
    (Some 0) (td_minutes 1) fresh fresh fresh fresh.

(** ** Reference definitions for further properties *)

Fixpoint count_commas (s : string) : nat :=
  match s with
  | EmptyString => 0
  | String c rest =>
      if Ascii.eqb c ","%char then S (count_commas rest) else count_commas rest
  end.

(** Whether a tick gets past line 102: a line of four fields whose second
    and third [float] accepts. *)
Definition fields_parse (input : serial_input) : bool :=
  match input with
  | Line text =>
      match Py.split_comma (Py.strip text) with
      | [_; temp; rh; _] =>
          match py_float temp, py_float rh with
          | Some _, Some _ => true
          | _, _ => false
          end
      | _ => false
      end
  | _ => false
  end.

(** The clock value of the first tick that got past line 102. *)
Fixpoint first_parsed (evs : list event) : option datetime :=
  match evs with
  | [] => None
  | Tick input t1 _ :: rest =>
      if fields_parse input then Some t1 else first_parsed rest
  | Select _ _ _ :: rest => first_parsed rest
  end.

(** The duration of the last selection in [evs], [current] when there is
    none. *)
Fixpoint selected (evs : list event) (current : timedelta) : timedelta :=
  match evs with
  | [] => current
  | Tick _ _ _ :: rest => selected rest current
  | Select index _ _ :: rest => selected rest (index_time_range index)
  end.

(** The clock values read at line 104, tick after tick. *)
Fixpoint tick_times (evs : list event) : list datetime :=
  match evs with
  | [] => []
  | Tick _ t1 _ :: rest => t1 :: tick_times rest
  | Select _ _ _ :: rest => tick_times rest
  end.

Definition keeps_start {A : Type} (m : M A) : Prop :=
  forall self, start_time (snd (m self)) = start_time self.

(** ** Lists and deques *)

Lemma lastn_length {A : Type} (n : nat) (xs : list A) :
  length (lastn n xs) = Nat.min (length xs) n.
Proof.
  unfold lastn. rewrite length_skipn. lia.
Qed.

Lemma skipn_succ_snoc {A : Type} (xs : list A) (x : A) :
  forall k, (k <= length xs)%nat ->
  skipn (S k) (xs ++ [x]) = tl (skipn k xs ++ [x]).
Proof.
  induction xs as [| y ys IH]; intros k Hle.
  - simpl in Hle. replace k with 0%nat by lia. reflexivity.
  - destruct k as [| k].
    + reflexivity.
    + simpl in Hle. simpl. apply IH. lia.
Qed.

Lemma lastn_snoc {A : Type} (n : nat) (xs : list A) (x : A) :
  lastn n (xs ++ [x]) =
  if (length (lastn n xs) <? n)%nat
  then lastn n xs ++ [x]
  else tl (lastn n xs ++ [x]).
Proof.
  rewrite lastn_length. unfold lastn. rewrite length_app. simpl.
  destruct (Nat.ltb_spec (Nat.min (length xs) n) n) as [Hlt | Hge].
  - replace (length xs + 1 - n)%nat with 0%nat by lia.
    replace (length xs - n)%nat with 0%nat by lia. reflexivity.
  - replace (length xs + 1 - n)%nat with (S (length xs - n)) by lia.
    apply skipn_succ_snoc. lia.
Qed.

Lemma deque_append_maxlen {A : Type} (d : deque A) (x : A) :
  maxlen (deque_append d x) = maxlen d.
Proof.
  unfold deque_append. destruct (length (items d) <? maxlen d)%nat; reflexivity.
Qed.

Lemma deque_append_len {A : Type} (d : deque A) (x : A) :
  deque_len (deque_append d x) =
  if (deque_len d <? maxlen d)%nat then S (deque_len d) else deque_len d.
Proof.
  unfold deque_append, deque_len.
  destruct (length (items d) <? maxlen d)%nat; simpl.
  - rewrite length_app. simpl. lia.
  - destruct (items d); reflexivity || (simpl; rewrite length_app; simpl; lia).
Qed.

Lemma deque_append_lastn {A : Type} (d : deque A) (x : A) (history : list A) :
  items d = lastn (maxlen d) history ->
  items (deque_append d x) = lastn (maxlen d) (history ++ [x]).
Proof.
  intros Hd. rewrite lastn_snoc. unfold deque_append. rewrite Hd.
  destruct (length (lastn (maxlen d) history) <? maxlen d)%nat; reflexivity.
Qed.

Lemma deque_append_last {A : Type} (d : deque A) (x y : A) :
  (0 < maxlen d)%nat -> last (items (deque_append d x)) y = x.
Proof.
  intros Hpos. unfold deque_append.
  destruct (Nat.ltb_spec (length (items d)) (maxlen d)) as [Hlt | Hge]; simpl.
  - apply last_last.
  - destruct (items d) as [| z zs] eqn:E.
    + simpl in Hge. lia.
    + simpl. apply last_last.
Qed.

(** ** What the handlers leave untouched *)

Lemma data_fields (s s' : InteractivePlot) :
  data s' = data s ->
  max_points s' = max_points s /\ time_range s' = time_range s /\
  timestamps s' = timestamps s /\ temperatures s' = temperatures s /\
  temp_avg s' = temp_avg s /\ rel_humidities s' = rel_humidities s /\
  abs_humidities s' = abs_humidities s /\ dew_points s' = dew_points s.
Proof.
  unfold data. intros H. injection H as -> -> -> -> -> -> -> ->.
  repeat split.
Qed.

Lemma keeps_data_ret {A : Type} (a : A) : keeps_data (ret a).
Proof. intros self. reflexivity. Qed.

Lemma keeps_data_lift {A : Type} (r : result A) : keeps_data (lift r).
Proof. intros self. reflexivity. Qed.

Lemma keeps_data_get : keeps_data get.
Proof. intros self. reflexivity. Qed.

Lemma keeps_data_axes (f1 f2 f3 f4 : axis -> axis) :
  keeps_data (modify (with_axes f1 f2 f3 f4)).
Proof. intros self. reflexivity. Qed.

Lemma keeps_data_start (t : datetime) : keeps_data (note_start_time t).
Proof.
  intros self. unfold note_start_time, modify. simpl.
  destruct (start_time self); reflexivity.
Qed.

Lemma keeps_data_bind {A B : Type} (m : M A) (k : A -> M B) :
  keeps_data m -> (forall a, keeps_data (k a)) -> keeps_data (bind m k).
Proof.
  intros Hm Hk self. unfold bind. specialize (Hm self).
  destruct (m self) as [[a | e] self']; simpl in *.
  - rewrite Hk. exact Hm.
  - exact Hm.
Qed.

Create HintDb frame.

#[local] Hint Resolve keeps_data_ret keeps_data_lift keeps_data_get
  keeps_data_axes keeps_data_start keeps_data_bind : frame.

Lemma keeps_data_temp_axis (vt va : list R) : keeps_data (adjust_temp_axis vt va).
Proof. unfold adjust_temp_axis. destruct (nonempty vt); auto 12 with frame. Qed.

Lemma keeps_data_rh_axis (v : list R) : keeps_data (adjust_rh_axis v).
Proof. unfold adjust_rh_axis. destruct (nonempty v); auto 8 with frame. Qed.

Lemma keeps_data_ah_axis (v : list R) : keeps_data (adjust_ah_axis v).
Proof. unfold adjust_ah_axis. destruct (nonempty v); auto 8 with frame. Qed.

Lemma keeps_data_dp_axis (v : list R) : keeps_data (adjust_dp_axis v).
Proof. unfold adjust_dp_axis. destruct (nonempty v); auto 8 with frame. Qed.

#[local] Hint Resolve keeps_data_temp_axis keeps_data_rh_axis
  keeps_data_ah_axis keeps_data_dp_axis : frame.

Lemma keeps_data_adjust (t : datetime) : keeps_data (adjust_y_axis_ranges t).
Proof. unfold adjust_y_axis_ranges. auto 12 with frame. Qed.

#[local] Hint Resolve keeps_data_adjust : frame.

Lemma update_time_range_data (index : Z) (t1 t2 : datetime) (self : InteractivePlot) :
  data (snd (update_time_range index t1 t2 self)) =
  data (with_time_range (index_time_range index) self).
Proof.
  unfold update_time_range.
  change (bind (modify (with_time_range (index_time_range index))) ?k self)
    with (k tt (with_time_range (index_time_range index) self)).
  cbv beta.
  apply (keeps_data_bind get). 
  - auto with frame.
  - intros s. auto 8 with frame.
Qed.

Lemma update_plot_data (input : serial_input) (t1 t2 : datetime) (self : InteractivePlot) :
  data (snd (update_plot input t1 t2 self)) =
  data (match tick_reading input with
        | Some r => after_append t1 r self
        | None => self
        end).
Proof.
  unfold update_plot, tick_reading.
  destruct input as [| | text]; try reflexivity.
  destruct (Py.split_comma (Py.strip text)) as [| f1 [| f2 [| f3 [| f4 [| f5 rest]]]]];
    try reflexivity.
  unfold bind at 1, lift at 1.
  destruct (py_float f2) as [temp |]; [| reflexivity ]. simpl float_of. cbv iota beta.
  unfold bind at 1, lift at 1.
  destruct (py_float f3) as [rh |]; [| reflexivity ]. simpl float_of. cbv iota beta.
  unfold bind at 1.
  pose proof (keeps_data_start t1 self) as Hs.
  destruct (note_start_time t1 self) as [[[] | e] s1] eqn:Es;
    [| unfold note_start_time, modify in Es; discriminate ].
  simpl in Hs.
  unfold bind at 1, lift at 1.
  destruct (calculate_absolute_humidity temp rh) as [ah | e]; [| simpl; assumption ].
  unfold bind at 1, lift at 1.
  destruct (calculate_dew_point temp rh) as [dp | e]; [| simpl; assumption ].
  unfold bind at 1. unfold push_reading at 1, modify at 1.
  unfold bind at 1. unfold push_average at 1, modify at 1.
  match goal with
  | |- data (snd (bind ?m ?k ?s)) = _ =>
      rewrite (keeps_data_bind m k) by auto 8 with frame
  end.
  apply data_fields in Hs. destruct Hs as (H1 & H2 & H3 & H4 & H5 & H6 & H7 & H8).
  unfold after_append, push_average, push_reading, modify, moving_average, recent_temps,
    data, with_temp_avg, with_readings. simpl.
  rewrite H1, H2, H3, H4, H5, H6, H7, H8. reflexivity.
Qed.

(** ** The invariant holds in every reachable state *)

Lemma invariant_data (s s' : InteractivePlot) :
  data s' = data s -> invariant s -> invariant s'.
Proof.
  intros H. apply data_fields in H.
  destruct H as (H1 & H2 & H3 & H4 & H5 & H6 & H7 & H8).
  unfold invariant, aligned, capacities, valid_range.
  rewrite H1, H2, H3, H4, H5, H6, H7, H8. tauto.
Qed.

Lemma invariant_init : invariant init.
Proof.
  unfold invariant, aligned, capacities, valid_range, selector_durations.
  repeat split. do 4 right. left. reflexivity.
Qed.

Lemma after_append_fields (t : datetime) (temp rh ah dp : R) (self : InteractivePlot) :
  let self' := after_append t (temp, rh, ah, dp) self in
  timestamps self' = deque_append (timestamps self) t /\
  temperatures self' = deque_append (temperatures self) temp /\
  rel_humidities self' = deque_append (rel_humidities self) rh /\
  abs_humidities self' = deque_append (abs_humidities self) ah /\
  dew_points self' = deque_append (dew_points self) dp /\
  temp_avg self' =
    deque_append (temp_avg self)
      (moving_average (snd (push_reading t temp rh ah dp self)) t temp) /\
  max_points self' = max_points self /\
  time_range self' = time_range self.
Proof.
  simpl. repeat split.
Qed.

Lemma invariant_after_append (t : datetime) (r : R * R * R * R) (self : InteractivePlot) :
  invariant self -> invariant (after_append t r self).
Proof.
  destruct r as [[[temp rh] ah] dp].
  intros (Hal & Hcap & Hrange).
  destruct (after_append_fields t temp rh ah dp self)
    as (E1 & E2 & E3 & E4 & E5 & E6 & E7 & E8).
  unfold aligned in Hal. destruct Hal as (A1 & A2 & A3 & A4 & A5).
  destruct Hcap as (C1 & C2 & C3 & C4 & C5 & C6 & C7).
  unfold invariant, aligned, capacities, valid_range.
  rewrite E1, E2, E3, E4, E5, E6, E7, E8.
  rewrite !deque_append_len, !deque_append_maxlen.
  rewrite A1, A2, A3, A4, A5, C1, C2, C3, C4, C5, C6.
  repeat split; auto.
Qed.

Lemma index_time_range_valid (index : Z) :
  In (index_time_range index) selector_durations.
Proof.
  unfold index_time_range, selector_durations.
  destruct (index =? 0); [ simpl; auto |].
  destruct (index =? 1); [ simpl; auto |].
  destruct (index =? 2); [ simpl; auto |].
  destruct (index =? 3); simpl; auto 6.
Qed.

Lemma invariant_step (self : InteractivePlot) (ev : event) :
  invariant self -> invariant (step self ev).
Proof.
  intros Hinv. unfold step. destruct ev as [input t1 t2 | index t1 t2]; simpl handle.
  - apply (invariant_data _ _ (update_plot_data input t1 t2 self)).
    destruct (tick_reading input) as [r |]; [ apply invariant_after_append |]; exact Hinv.
  - apply (invariant_data _ _ (update_time_range_data index t1 t2 self)).
    destruct Hinv as (Hal & Hcap & _). repeat split; try apply Hal; try apply Hcap.
    apply index_time_range_valid.
Qed.

Lemma run_snoc (evs : list event) (ev : event) :
  run (evs ++ [ev]) = step (run evs) ev.
Proof.
  unfold run. rewrite fold_left_app. reflexivity.
Qed.

Lemma invariant_run (evs : list event) : invariant (run evs).
Proof.
  induction evs as [| ev evs IH] using rev_ind.
  - exact invariant_init.
  - rewrite run_snoc. apply invariant_step. exact IH.
Qed.

Lemma invariant_reachable (self : InteractivePlot) :
  reachable self -> invariant self.
Proof.
  intros [evs ->]. apply invariant_run.
Qed.

Lemma valid_range_nonneg (self : InteractivePlot) :
  valid_range self -> 0 < time_range self.
Proof.
  unfold valid_range, selector_durations, td_hours, td_minutes, td_seconds.
  simpl. intros [H | [H | [H | [H | [H | []]]]]]; rewrite <- H; lia.
Qed.

(** ** [min] and [max] *)

Lemma min2_Rmin (a b : R) : Py.min2 a b = Rmin a b.
Proof.
  unfold Py.min2, Rmin. destruct (Rlt_dec b a), (Rle_dec a b); lra.
Qed.

Lemma max2_Rmax (a b : R) : Py.max2 a b = Rmax a b.
Proof.
  unfold Py.max2, Rmax. destruct (Rgt_dec b a), (Rle_dec a b); lra.
Qed.

Lemma fold_right_Rmin_least (x : R) (rest : list R) :
  least (fold_right Rmin x rest) (x :: rest).
Proof.
  induction rest as [| y ys [Hin Hle]]; simpl.
  - split; [ left; reflexivity | intros y [<- | []]; lra ].
  - split.
    + apply Rmin_case.
      * right. left. reflexivity.
      * destruct Hin as [Hin | Hin]; [ left; exact Hin | right; right; exact Hin ].
    + intros z Hz.
      pose proof (Rmin_l y (fold_right Rmin x ys)) as Hl.
      pose proof (Rmin_r y (fold_right Rmin x ys)) as Hr.
      destruct Hz as [<- | [<- | Hz]].
      * specialize (Hle x (or_introl eq_refl)). lra.
      * lra.
      * specialize (Hle z (or_intror Hz)). lra.
Qed.

Lemma fold_right_Rmax_greatest (x : R) (rest : list R) :
  greatest (fold_right Rmax x rest) (x :: rest).
Proof.
  induction rest as [| y ys [Hin Hle]]; simpl.
  - split; [ left; reflexivity | intros y [<- | []]; lra ].
  - split.
    + apply Rmax_case.
      * right. left. reflexivity.
      * destruct Hin as [Hin | Hin]; [ left; exact Hin | right; right; exact Hin ].
    + intros z Hz.
      pose proof (Rmax_l y (fold_right Rmax x ys)) as Hl.
      pose proof (Rmax_r y (fold_right Rmax x ys)) as Hr.
      destruct Hz as [<- | [<- | Hz]].
      * specialize (Hle x (or_introl eq_refl)). lra.
      * lra.
      * specialize (Hle z (or_intror Hz)). lra.
Qed.

Lemma list_min_least (xs : list R) : xs <> [] -> least (list_min xs) xs.
Proof.
  destruct xs as [| x rest]; [ congruence |]. intros _. apply fold_right_Rmin_least.
Qed.

Lemma list_max_greatest (xs : list R) : xs <> [] -> greatest (list_max xs) xs.
Proof.
  destruct xs as [| x rest]; [ congruence |]. intros _. apply fold_right_Rmax_greatest.
Qed.

Lemma least_unique (m m' : R) (xs : list R) : least m xs -> least m' xs -> m = m'.
Proof.
  intros [Hin Hle] [Hin' Hle']. specialize (Hle _ Hin'). specialize (Hle' _ Hin). lra.
Qed.

Lemma greatest_unique (m m' : R) (xs : list R) :
  greatest m xs -> greatest m' xs -> m = m'.
Proof.
  intros [Hin Hle] [Hin' Hle']. specialize (Hle _ Hin'). specialize (Hle' _ Hin). lra.
Qed.

Lemma fold_left_min2_least (rest : list R) :
  forall x, least (fold_left Py.min2 rest x) (x :: rest).
Proof.
  induction rest as [| y ys IH]; intros x; simpl.
  - split; [ left; reflexivity | intros y [<- | []]; lra ].
  - destruct (IH (Py.min2 x y)) as [Hin Hle]. rewrite min2_Rmin in *. split.
    + destruct Hin as [Hin | Hin]; [| right; right; exact Hin ].
      rewrite <- Hin. apply Rmin_case; [ left | right; left ]; reflexivity.
    + intros z Hz.
      pose proof (Hle (Rmin x y) (or_introl eq_refl)) as Hm.
      pose proof (Rmin_l x y) as Hl. pose proof (Rmin_r x y) as Hr.
      destruct Hz as [<- | [<- | Hz]]; [ lra | lra |].
      apply Hle. right. exact Hz.
Qed.

Lemma fold_left_max2_greatest (rest : list R) :
  forall x, greatest (fold_left Py.max2 rest x) (x :: rest).
Proof.
  induction rest as [| y ys IH]; intros x; simpl.
  - split; [ left; reflexivity | intros y [<- | []]; lra ].
  - destruct (IH (Py.max2 x y)) as [Hin Hle]. rewrite max2_Rmax in *. split.
    + destruct Hin as [Hin | Hin]; [| right; right; exact Hin ].
      rewrite <- Hin. apply Rmax_case; [ left | right; left ]; reflexivity.
    + intros z Hz.
      pose proof (Hle (Rmax x y) (or_introl eq_refl)) as Hm.
      pose proof (Rmax_l x y) as Hl. pose proof (Rmax_r x y) as Hr.
      destruct Hz as [<- | [<- | Hz]]; [ lra | lra |].
      apply Hle. right. exact Hz.
Qed.

Lemma py_min_list_min (x : R) (rest : list R) :
  Py.min (x :: rest) = Ok (list_min (x :: rest)).
Proof.
  unfold Py.min. f_equal.
  apply (least_unique _ _ (x :: rest)).
  - apply fold_left_min2_least.
  - apply fold_right_Rmin_least.
Qed.

Lemma py_max_list_max (x : R) (rest : list R) :
  Py.max (x :: rest) = Ok (list_max (x :: rest)).
Proof.
  unfold Py.max. f_equal.
  apply (greatest_unique _ _ (x :: rest)).
  - apply fold_left_max2_greatest.
  - apply fold_right_Rmax_greatest.
Qed.

Lemma list_min_app (xs ys : list R) :
  xs <> [] -> ys <> [] -> Rmin (list_min xs) (list_min ys) = list_min (xs ++ ys).
Proof.
  intros Hx Hy.
  destruct (list_min_least xs Hx) as [Hin1 Hle1].
  destruct (list_min_least ys Hy) as [Hin2 Hle2].
  apply (least_unique _ _ (xs ++ ys)).
  - split.
    + apply in_or_app. apply Rmin_case; [ left | right ]; assumption.
    + intros z Hz. apply in_app_or in Hz.
      pose proof (Rmin_l (list_min xs) (list_min ys)).
      pose proof (Rmin_r (list_min xs) (list_min ys)).
      destruct Hz as [Hz | Hz]; [ specialize (Hle1 _ Hz) | specialize (Hle2 _ Hz) ]; lra.
  - apply list_min_least. destruct xs; [ congruence | discriminate ].
Qed.

Lemma list_max_app (xs ys : list R) :
  xs <> [] -> ys <> [] -> Rmax (list_max xs) (list_max ys) = list_max (xs ++ ys).
Proof.
  intros Hx Hy.
  destruct (list_max_greatest xs Hx) as [Hin1 Hle1].
  destruct (list_max_greatest ys Hy) as [Hin2 Hle2].
  apply (greatest_unique _ _ (xs ++ ys)).
  - split.
    + apply in_or_app. apply Rmax_case; [ left | right ]; assumption.
    + intros z Hz. apply in_app_or in Hz.
      pose proof (Rmax_l (list_max xs) (list_max ys)).
      pose proof (Rmax_r (list_max xs) (list_max ys)).
      destruct Hz as [Hz | Hz]; [ specialize (Hle1 _ Hz) | specialize (Hle2 _ Hz) ]; lra.
  - apply list_max_greatest. destruct xs; [ congruence | discriminate ].
Qed.

(** ** The visible window *)

Lemma filter_zip_stamps {A : Type} (p : datetime -> bool) (xs : list A) :
  forall ts, length xs = length ts ->
  map snd (filter (fun q => p (snd q)) (Py.zip xs ts)) = filter p ts.
Proof.
  unfold Py.zip.
  induction xs as [| x xs IH]; intros [| t ts] Hlen; simpl in *; try discriminate.
  - reflexivity.
  - injection Hlen as Hlen. destruct (p t); simpl; rewrite IH by exact Hlen; reflexivity.
Qed.

Lemma visible_points {A : Type} (series : deque A) (stamps : deque datetime)
    (start : datetime) :
  deque_len series = deque_len stamps ->
  combine (visible series stamps start) (filter (fun t => start <=? t) (items stamps)) =
  filter (fun q => start <=? snd q) (Py.zip (items series) (items stamps)).
Proof.
  unfold deque_len, visible. intros Hlen.
  rewrite <- (filter_zip_stamps (fun t => start <=? t) (items series) (items stamps) Hlen).
  generalize (filter (fun q => start <=? snd q) (Py.zip (items series) (items stamps))).
  intros qs. induction qs as [| [v t] qs IH]; simpl; [| rewrite IH ]; reflexivity.
Qed.

Lemma visible_length {A : Type} (series : deque A) (stamps : deque datetime)
    (start : datetime) :
  deque_len series = deque_len stamps ->
  length (visible series stamps start) =
  length (filter (fun t => start <=? t) (items stamps)).
Proof.
  unfold deque_len. intros Hlen.
  rewrite <- (filter_zip_stamps (fun t => start <=? t) (items series) (items stamps) Hlen).
  unfold visible. rewrite !length_map. reflexivity.
Qed.

Lemma nonempty_length {A B : Type} (xs : list A) (ys : list B) :
  length xs = length ys -> nonempty xs = nonempty ys.
Proof.
  destruct xs, ys; simpl; congruence.
Qed.

(** ** [adjust_y_axis_ranges] on aligned series *)

Lemma with_axes_keep (self : InteractivePlot) :
  with_axes keep keep keep keep self = self.
Proof. destruct self. reflexivity. Qed.

Lemma adjust_temp_axis_spec (temps avgs : list R) (self : InteractivePlot) :
  length avgs = length temps ->
  adjust_temp_axis temps avgs self =
  (Ok tt, with_axes (temp_limits temps avgs) keep keep keep self).
Proof.
  intros Hlen. unfold adjust_temp_axis, temp_limits.
  destruct temps as [| x xs], avgs as [| y ys]; try discriminate; simpl nonempty; cbv iota.
  - unfold ret. rewrite with_axes_keep. reflexivity.
  - rewrite !py_min_list_min, !py_max_list_max. unfold bind, lift, modify.
    rewrite min2_Rmin, max2_Rmax.
    rewrite list_min_app, list_max_app by discriminate. reflexivity.
Qed.

Lemma adjust_rh_axis_spec (rhs : list R) (self : InteractivePlot) :
  adjust_rh_axis rhs self = (Ok tt, with_axes keep (rh_limits rhs) keep keep self).
Proof.
  unfold adjust_rh_axis, rh_limits. destruct rhs as [| x xs]; simpl nonempty; cbv iota.
  - unfold ret. rewrite with_axes_keep. reflexivity.
  - rewrite py_min_list_min, py_max_list_max. unfold bind, lift, modify.
    rewrite min2_Rmin, max2_Rmax. reflexivity.
Qed.

Lemma adjust_ah_axis_spec (ahs : list R) (self : InteractivePlot) :
  adjust_ah_axis ahs self = (Ok tt, with_axes keep keep (ah_limits ahs) keep self).
Proof.
  unfold adjust_ah_axis, ah_limits. destruct ahs as [| x xs]; simpl nonempty; cbv iota.
  - unfold ret. rewrite with_axes_keep. reflexivity.
  - rewrite py_min_list_min, py_max_list_max. reflexivity.
Qed.

Lemma adjust_dp_axis_spec (dps : list R) (self : InteractivePlot) :
  adjust_dp_axis dps self = (Ok tt, with_axes keep keep keep (dp_limits dps) self).
Proof.
  unfold adjust_dp_axis, dp_limits. destruct dps as [| x xs]; simpl nonempty; cbv iota.
  - unfold ret. rewrite with_axes_keep. reflexivity.
  - rewrite py_min_list_min, py_max_list_max. reflexivity.
Qed.

Lemma adjust_spec (current_time : datetime) (self : InteractivePlot) :
  aligned self ->
  adjust_y_axis_ranges current_time self =
  (Ok tt, rescaled (current_time - time_range self) self).
Proof.
  intros (A1 & A2 & A3 & A4 & A5).
  unfold adjust_y_axis_ranges. unfold bind at 1, get at 1. cbv zeta.
  unfold bind at 1. rewrite adjust_temp_axis_spec
    by (rewrite !visible_length by congruence; reflexivity).
  unfold bind at 1. rewrite adjust_rh_axis_spec.
  unfold bind at 1. rewrite adjust_ah_axis_spec.
  rewrite adjust_dp_axis_spec. reflexivity.
Qed.

(** ** Alignment of the six series *)

(** C10: after every tick, whatever the serial port held (no data, a line
    that is skipped or that raises, a line that is appended), the six deques
    have equal length, and so do their filtered views for any window start:
    one filtered series is non-empty exactly when the others are. *)
Theorem series_stay_aligned (evs : list event) (input : serial_input)
    (t1 t2 : datetime) :
  let self := step (run evs) (Tick input t1 t2) in
  aligned self /\
  forall start,
    let n := length (visible_timestamps self start) in
    length (visible (temperatures self) (timestamps self) start) = n /\
    length (visible (temp_avg self) (timestamps self) start) = n /\
    length (visible (rel_humidities self) (timestamps self) start) = n /\
    length (visible (abs_humidities self) (timestamps self) start) = n /\
    length (visible (dew_points self) (timestamps self) start) = n.
Proof.
  intros self.
  assert (Hinv : invariant self) by (apply invariant_step, invariant_run).
  destruct Hinv as (Hal & _). split; [ exact Hal |].
  destruct Hal as (A1 & A2 & A3 & A4 & A5). intros start n. subst n.
  unfold visible_timestamps. rewrite !visible_length by assumption. repeat split.
Qed.

(** ** The bounded buffer *)

Lemma appended_app (evs evs' : list event) :
  appended (evs ++ evs') = appended evs ++ appended evs'.
Proof.
  induction evs as [| [input t1 t2 | index t1 t2] evs IH]; simpl.
  - reflexivity.
  - destruct (tick_reading input); simpl; rewrite IH; reflexivity.
  - exact IH.
Qed.

Lemma appended_avgs_app (evs evs' : list event) :
  forall self,
  appended_avgs self (evs ++ evs') =
  appended_avgs self evs ++ appended_avgs (fold_left step evs self) evs'.
Proof.
  induction evs as [| [input t1 t2 | index t1 t2] evs IH]; intros self; simpl.
  - reflexivity.
  - destruct (tick_reading input) as [[[[temp rh] ah] dp] |]; simpl; rewrite IH; reflexivity.
  - apply IH.
Qed.

Lemma appended_avgs_length (evs : list event) :
  forall self, length (appended_avgs self evs) = length (appended evs).
Proof.
  induction evs as [| [input t1 t2 | index t1 t2] evs IH]; intros self; simpl.
  - reflexivity.
  - destruct (tick_reading input) as [[[[temp rh] ah] dp] |]; simpl; rewrite IH; reflexivity.
  - apply IH.
Qed.

(** C2: along every sequence of events each of the six series holds at most
    [4 * 60 * 60] items, and holds exactly the last [min(count, 4*60*60)] of
    the values appended to it, in the order they were appended. *)
Theorem buffer_bounded_fifo (evs : list event) :
  let self := run evs in
  let rows := appended evs in
  let n_max := (4 * 60 * 60)%nat in
  (items (timestamps self) = lastn n_max (map row_time rows) /\
   items (temperatures self) = lastn n_max (map row_temp rows) /\
   items (rel_humidities self) = lastn n_max (map row_rh rows) /\
   items (abs_humidities self) = lastn n_max (map row_ah rows) /\
   items (dew_points self) = lastn n_max (map row_dp rows) /\
   items (temp_avg self) = lastn n_max (appended_avgs init evs)) /\
  (deque_len (timestamps self) = Nat.min (length rows) n_max /\
   deque_len (temperatures self) = Nat.min (length rows) n_max /\
   deque_len (rel_humidities self) = Nat.min (length rows) n_max /\
   deque_len (abs_humidities self) = Nat.min (length rows) n_max /\
   deque_len (dew_points self) = Nat.min (length rows) n_max /\
   deque_len (temp_avg self) = Nat.min (length rows) n_max) /\
  (deque_len (timestamps self) <= n_max /\
   deque_len (temperatures self) <= n_max /\
   deque_len (rel_humidities self) <= n_max /\
   deque_len (abs_humidities self) <= n_max /\
   deque_len (dew_points self) <= n_max /\
   deque_len (temp_avg self) <= n_max)%nat.
Proof.
  cbv zeta.
  assert (Hitems :
    items (timestamps (run evs)) = lastn (4 * 60 * 60) (map row_time (appended evs)) /\
    items (temperatures (run evs)) = lastn (4 * 60 * 60) (map row_temp (appended evs)) /\
    items (rel_humidities (run evs)) = lastn (4 * 60 * 60) (map row_rh (appended evs)) /\
    items (abs_humidities (run evs)) = lastn (4 * 60 * 60) (map row_ah (appended evs)) /\
    items (dew_points (run evs)) = lastn (4 * 60 * 60) (map row_dp (appended evs)) /\
    items (temp_avg (run evs)) = lastn (4 * 60 * 60) (appended_avgs init evs)).
  { induction evs as [| ev evs IH] using rev_ind.
    - repeat split.
    - destruct IH as (I1 & I2 & I3 & I4 & I5 & I6).
      destruct (invariant_run evs) as (_ & Hcap & _).
      destruct Hcap as (C1 & C2 & C3 & C4 & C5 & C6 & C7).
      rewrite C7 in C1, C2, C3, C4, C5, C6.
      rewrite run_snoc, appended_app, appended_avgs_app, !map_app.
      fold (run evs). unfold step at 1 2 3 4 5 6.
      destruct ev as [input t1 t2 | index t1 t2]; simpl handle; simpl appended;
        simpl appended_avgs.
      + pose proof (update_plot_data input t1 t2 (run evs)) as Hd.
        apply data_fields in Hd.
        destruct Hd as (_ & _ & -> & -> & -> & -> & -> & ->).
        destruct (tick_reading input) as [[[[temp rh] ah] dp] |].
        * destruct (after_append_fields t1 temp rh ah dp (run evs))
            as (-> & -> & -> & -> & -> & -> & _ & _).
          simpl map.
          rewrite <- C1 at 1. rewrite <- C2 at 1. rewrite <- C4 at 1.
          rewrite <- C5 at 1. rewrite <- C6 at 1. rewrite <- C3 at 1.
          repeat split; apply deque_append_lastn; congruence.
        * simpl. rewrite !app_nil_r. repeat split; assumption.
      + pose proof (update_time_range_data index t1 t2 (run evs)) as Hd.
        apply data_fields in Hd.
        destruct Hd as (_ & _ & -> & -> & -> & -> & -> & ->).
        simpl. rewrite !app_nil_r. repeat split; assumption. }
  pose proof (appended_avgs_length evs init) as Hlen.
  destruct Hitems as (I1 & I2 & I3 & I4 & I5 & I6).
  assert (Hsizes :
    deque_len (timestamps (run evs)) = Nat.min (length (appended evs)) (4 * 60 * 60) /\
    deque_len (temperatures (run evs)) = Nat.min (length (appended evs)) (4 * 60 * 60) /\
    deque_len (rel_humidities (run evs)) = Nat.min (length (appended evs)) (4 * 60 * 60) /\
    deque_len (abs_humidities (run evs)) = Nat.min (length (appended evs)) (4 * 60 * 60) /\
    deque_len (dew_points (run evs)) = Nat.min (length (appended evs)) (4 * 60 * 60) /\
    deque_len (temp_avg (run evs)) = Nat.min (length (appended evs)) (4 * 60 * 60)).
  { unfold deque_len. rewrite I1, I2, I3, I4, I5, I6, !lastn_length, !length_map, Hlen.
    repeat split. }
  split; [ repeat split; assumption |]. split; [ exact Hsizes |].
  destruct Hsizes as (-> & -> & -> & -> & -> & ->).
  repeat split; apply Nat.le_min_r.
Qed.

(** ** The moving average *)

Lemma deque_append_snoc {A : Type} (d : deque A) (x : A) :
  (0 < maxlen d)%nat ->
  exists pre,
    items (deque_append d x) = pre ++ [x] /\
    length pre = (if (deque_len d <? maxlen d)%nat then deque_len d else pred (deque_len d)) /\
    forall y, In y pre -> In y (items d).
Proof.
  intros Hpos. unfold deque_append, deque_len.
  destruct (Nat.ltb_spec (length (items d)) (maxlen d)) as [Hlt | Hge].
  - exists (items d). auto.
  - destruct (items d) as [| z zs]; [ simpl in Hge; lia |].
    exists zs. simpl. auto.
Qed.

Lemma zip_snoc {A B : Type} (xs : list A) (ys : list B) (x : A) (y : B) :
  length xs = length ys ->
  Py.zip (xs ++ [x]) (ys ++ [y]) = Py.zip xs ys ++ [(x, y)].
Proof.
  unfold Py.zip. revert ys.
  induction xs as [| a xs IH]; intros [| b ys] Hlen; simpl in *; try discriminate.
  - reflexivity.
  - rewrite IH by congruence. reflexivity.
Qed.

Lemma in_zip_stamp {A : Type} (xs : list A) (ts : list Z) (p : A * Z) :
  In p (Py.zip xs ts) -> In (snd p) ts.
Proof.
  destruct p as [v t]. unfold Py.zip. apply in_combine_r.
Qed.

Lemma filter_none {A : Type} (f : A -> bool) (xs : list A) :
  (forall x, In x xs -> f x = false) -> filter f xs = [].
Proof.
  induction xs as [| x xs IH]; intros H; simpl.
  - reflexivity.
  - rewrite (H x (or_introl eq_refl)). apply IH. intros y Hy. apply H. right. exact Hy.
Qed.

Lemma invariant_start (t : datetime) (self : InteractivePlot) :
  invariant self -> invariant (snd (note_start_time t self)).
Proof.
  apply invariant_data, keeps_data_start.
Qed.

Lemma recent_after_push (t since : datetime) (temp rh ah dp : R) (self : InteractivePlot) :
  invariant self ->
  exists older : list (R * Z),
    recent_temps (snd (push_reading t temp rh ah dp self)) since =
      map fst (filter (fun p => since <? snd p) older)
      ++ (if since <? t then [temp] else []) /\
    forall p, In p older -> In (snd p) (items (timestamps self)).
Proof.
  intros (Hal & Hcap & _).
  destruct Hal as (A1 & _). destruct Hcap as (C1 & C2 & _ & _ & _ & _ & C7).
  assert (P1 : (0 < maxlen (temperatures self))%nat) by (rewrite C2, C7; lia).
  assert (P2 : (0 < maxlen (timestamps self))%nat) by (rewrite C1, C7; lia).
  destruct (deque_append_snoc (temperatures self) temp P1) as (pre1 & E1 & L1 & _).
  destruct (deque_append_snoc (timestamps self) t P2) as (pre2 & E2 & L2 & I2).
  exists (Py.zip pre1 pre2). split.
  - unfold recent_temps, push_reading, modify. simpl.
    rewrite E1, E2, zip_snoc by (rewrite L1, L2, A1, C1, C2; reflexivity).
    rewrite filter_app, map_app. simpl. destruct (since <? t); reflexivity.
  - intros p Hp. apply I2. apply (in_zip_stamp pre1). exact Hp.
Qed.


(** C3: when no entry already in the buffer has a timestamp inside the
    trailing twenty seconds (in particular when the buffer is empty), the
    moving average stored for a newly appended reading equals its
    temperature. *)
Theorem lone_reading_average (self : InteractivePlot) (input : serial_input)
    (t1 t2 : datetime) (temp rh ah dp : R) :
  invariant self ->
  tick_reading input = Some (temp, rh, ah, dp) ->
  (forall ts, In ts (items (timestamps self)) -> ts <= t1 - td_seconds 20) ->
  let self' := step self (Tick input t1 t2) in
  deque_len (temp_avg self') = deque_len (timestamps self') /\
  last (items (temp_avg self')) 0%R = temp.
Proof.
  intros Hinv Hread Hold self'.
  assert (Hinv' : invariant self') by (apply invariant_step; exact Hinv).
  split; [ apply Hinv' |].
  pose proof (update_plot_data input t1 t2 self) as Hd. rewrite Hread in Hd.
  apply data_fields in Hd. destruct Hd as (_ & _ & _ & _ & Havg & _).
  subst self'. unfold step. simpl handle. rewrite Havg.
  destruct (after_append_fields t1 temp rh ah dp self) as (_ & _ & _ & _ & _ & -> & _ & _).
  rewrite deque_append_last.
  2:{ destruct Hinv as (_ & Hcap & _). destruct Hcap as (_ & _ & C3 & _ & _ & _ & C7).
      rewrite C3, C7. lia. }
  destruct (recent_after_push t1 (t1 - td_seconds 20) temp rh ah dp self Hinv)
    as (older & Hrecent & Hin).
  unfold moving_average. rewrite Hrecent.
  replace (filter (fun p => t1 - td_seconds 20 <? snd p) older) with (@nil (R * Z)).
  - replace (t1 - td_seconds 20 <? t1) with true
      by (symmetry; apply Z.ltb_lt; unfold td_seconds; lia).
    simpl. unfold Py.sum. simpl. field.
  - symmetry. apply filter_none. intros p Hp. apply Hin, Hold in Hp.
    apply Z.ltb_ge. exact Hp.
Qed.

(** ** Window filtering *)

Lemma window_exact_aligned {A : Type} (self : InteractivePlot) (T : datetime)
    (series : deque A) :
  deque_len series = deque_len (timestamps self) ->
  0 <= time_range self ->
  window_exact self T series.
Proof.
  intros Hlen Hpos. unfold window_exact, visible_timestamps.
  rewrite visible_points by exact Hlen.
  split; [ reflexivity |]. split.
  - intros p. rewrite filter_In, Z.leb_le. reflexivity.
  - intros p Hin Hlate. apply filter_In. split; [ exact Hin |]. apply Z.leb_le. lia.
Qed.

(** C4: for aligned series, any call time [T] and any non-negative selected
    duration, the visible timestamps are exactly the buffered timestamps
    [>= T - D], and each visible series, paired with them, is exactly the
    list of buffered points with timestamp [>= T - D], in buffer order;
    points stamped later than [T] are kept. *)
Theorem window_filter_exact (self : InteractivePlot) (T : datetime) :
  aligned self ->
  0 <= time_range self ->
  (forall t, In t (visible_timestamps self (T - time_range self)) <->
             In t (items (timestamps self)) /\ T - time_range self <= t) /\
  window_exact self T (temperatures self) /\
  window_exact self T (temp_avg self) /\
  window_exact self T (rel_humidities self) /\
  window_exact self T (abs_humidities self) /\
  window_exact self T (dew_points self).
Proof.
  intros (A1 & A2 & A3 & A4 & A5) Hpos. split.
  - intros t. unfold visible_timestamps. rewrite filter_In, Z.leb_le. reflexivity.
  - split; [| split; [| split; [| split ]]]; apply window_exact_aligned; assumption.
Qed.

(** ** Axis ranges *)

Lemma keeps_xlims_ret {A : Type} (a : A) : keeps_xlims (ret a).
Proof. intros self. reflexivity. Qed.

Lemma keeps_xlims_lift {A : Type} (r : result A) : keeps_xlims (lift r).
Proof. intros self. reflexivity. Qed.

Lemma keeps_xlims_get : keeps_xlims get.
Proof. intros self. reflexivity. Qed.

Lemma keeps_xlims_axes (f1 f2 f3 f4 : axis -> axis) :
  (forall ax, xlim (f1 ax) = xlim ax) -> (forall ax, xlim (f2 ax) = xlim ax) ->
  (forall ax, xlim (f3 ax) = xlim ax) -> (forall ax, xlim (f4 ax) = xlim ax) ->
  keeps_xlims (modify (with_axes f1 f2 f3 f4)).
Proof.
  intros H1 H2 H3 H4 self. unfold xlims. simpl. rewrite H1, H2, H3, H4. reflexivity.
Qed.

Lemma keeps_xlims_bind {A B : Type} (m : M A) (k : A -> M B) :
  keeps_xlims m -> (forall a, keeps_xlims (k a)) -> keeps_xlims (bind m k).
Proof.
  intros Hm Hk self. unfold bind. specialize (Hm self).
  destruct (m self) as [[a | e] self']; simpl in *.
  - rewrite Hk. exact Hm.
  - exact Hm.
Qed.

Lemma xlim_set_ylim (lo hi : R) (ax : axis) : xlim (set_ylim lo hi ax) = xlim ax.
Proof. reflexivity. Qed.

Lemma xlim_keep (ax : axis) : xlim (keep ax) = xlim ax.
Proof. reflexivity. Qed.

Create HintDb xframe.

#[local] Hint Resolve keeps_xlims_ret keeps_xlims_lift keeps_xlims_get
  keeps_xlims_axes keeps_xlims_bind xlim_set_ylim xlim_keep : xframe.

Lemma keeps_xlims_adjust (t : datetime) : keeps_xlims (adjust_y_axis_ranges t).
Proof.
  unfold adjust_y_axis_ranges, adjust_temp_axis, adjust_rh_axis, adjust_ah_axis,
    adjust_dp_axis.
  apply keeps_xlims_bind; [ auto with xframe |]. intros self. cbv zeta.
  repeat (apply keeps_xlims_bind; [| intros ? ]);
    match goal with
    | |- keeps_xlims (if ?b then _ else _) => destruct b
    end; auto 12 with xframe.
Qed.

(** C6: when the visible subset of any series is empty, which for aligned
    series means that every one is, [adjust_y_axis_ranges] returns normally
    and leaves the whole state, the y range of every axis included, as it
    was. *)
Theorem empty_window_keeps_ranges (self : InteractivePlot) (T : datetime) :
  aligned self ->
  let start := T - time_range self in
  visible (temperatures self) (timestamps self) start = [] \/
  visible (temp_avg self) (timestamps self) start = [] \/
  visible (rel_humidities self) (timestamps self) start = [] \/
  visible (abs_humidities self) (timestamps self) start = [] \/
  visible (dew_points self) (timestamps self) start = [] ->
  adjust_y_axis_ranges T self = (Ok tt, self).
Proof.
  intros Hal start Hempty. rewrite adjust_spec by exact Hal. fold start.
  destruct Hal as (A1 & A2 & A3 & A4 & A5).
  assert (Hz : (length (visible_timestamps self start) = 0)%nat).
  { unfold visible_timestamps.
    destruct Hempty as [H | [H | [H | [H | H]]]];
      apply (f_equal (@length R)) in H; rewrite visible_length in H by assumption;
      exact H. }
  unfold visible_timestamps in Hz.
  assert (E : forall series : deque R,
             deque_len series = deque_len (timestamps self) ->
             visible series (timestamps self) start = []).
  { intros series Hlen. apply length_zero_iff_nil.
    rewrite visible_length by exact Hlen. exact Hz. }
  unfold rescaled. rewrite !E by assumption.
  unfold temp_limits, rh_limits, ah_limits, dp_limits. simpl nonempty. cbv iota.
  rewrite with_axes_keep. reflexivity.
Qed.

Lemma update_plot_success (input : serial_input) (t1 t2 : datetime)
    (r : R * R * R * R) (self : InteractivePlot) :
  tick_reading input = Some r ->
  update_plot input t1 t2 self =
  (adjust_y_axis_ranges t2 ;;
   self' <- get ;;
   let lims := set_xlim (t1 - time_range self') t1 in
   modify (with_axes lims lims lims lims))
    (after_append t1 r (snd (note_start_time t1 self))).
Proof.
  unfold update_plot, tick_reading.
  destruct input as [| | text]; try discriminate.
  destruct (Py.split_comma (Py.strip text)) as [| f1 [| f2 [| f3 [| f4 [| f5 rest]]]]];
    try discriminate.
  destruct (py_float f2) as [temp |]; [| discriminate ].
  destruct (py_float f3) as [rh |]; [| discriminate ].
  destruct (calculate_absolute_humidity temp rh) as [ah | e] eqn:Eah; [| discriminate ].
  destruct (calculate_dew_point temp rh) as [dp | e] eqn:Edp; [| discriminate ].
  intros [= <-].
  unfold bind at 1, lift at 1. simpl float_of. cbv iota beta.
  unfold bind at 1, lift at 1. simpl float_of. cbv iota beta.
  unfold bind at 1.
  destruct (note_start_time t1 self) as [[[] | e] s1] eqn:Es;
    [| unfold note_start_time, modify in Es; discriminate ].
  unfold bind at 1, lift at 1. rewrite Eah.
  unfold bind at 1, lift at 1. rewrite Edp.
  reflexivity.
Qed.

Lemma after_append_data (t : datetime) (r : R * R * R * R) (s s' : InteractivePlot) :
  data s' = data s -> data (after_append t r s') = data (after_append t r s).
Proof.
  intros H. apply data_fields in H.
  destruct H as (H1 & H2 & H3 & H4 & H5 & H6 & H7 & H8).
  destruct r as [[[temp rh] ah] dp].
  unfold after_append, push_average, push_reading, modify, moving_average, recent_temps,
    data, with_temp_avg, with_readings. simpl.
  rewrite H1, H2, H3, H4, H5, H6, H7, H8. reflexivity.
Qed.

Lemma nonempty_true {A : Type} (xs : list A) : xs <> [] -> nonempty xs = true.
Proof. destruct xs; [ congruence | reflexivity ]. Qed.

(** C5: a tick that appends a reading and finds the visible subset non-empty
    returns normally and leaves, with [temps], [avgs], [rhs], [ahs] and [dps]
    the visible items of the buffer that holds the new reading:
    the temperature axis at [[min(temps, avgs) - 1, max(temps, avgs) + 1]],
    the relative-humidity axis at [[max(0, min rhs - 5), min(100, max rhs + 5)]],
    the absolute-humidity axis at [[min ahs - 0.5, max ahs + 0.5]],
    the dew-point axis at [[min dps - 1, max dps + 1]],
    and the x range of all four axes at [[T - D, T]], [T] being the clock
    value stored with the reading. *)
Theorem axis_ranges_after_tick (self : InteractivePlot) (input : serial_input)
    (t1 t2 : datetime) (r : R * R * R * R) :
  invariant self ->
  tick_reading input = Some r ->
  let buffer := after_append t1 r self in
  let D := time_range self in
  let start := t2 - D in
  visible_timestamps buffer start <> [] ->
  let temps := visible (temperatures buffer) (timestamps buffer) start in
  let avgs := visible (temp_avg buffer) (timestamps buffer) start in
  let rhs := visible (rel_humidities buffer) (timestamps buffer) start in
  let ahs := visible (abs_humidities buffer) (timestamps buffer) start in
  let dps := visible (dew_points buffer) (timestamps buffer) start in
  let outcome := update_plot input t1 t2 self in
  fst outcome = Ok tt /\
  ylim (ax1 (snd outcome)) =
    Some (list_min (temps ++ avgs) - 1, list_max (temps ++ avgs) + 1)%R /\
  ylim (ax2 (snd outcome)) =
    Some (Rmax 0 (list_min rhs - 5), Rmin 100 (list_max rhs + 5))%R /\
  ylim (ax3 (snd outcome)) = Some (list_min ahs - 0.5, list_max ahs + 0.5)%R /\
  ylim (ax4 (snd outcome)) = Some (list_min dps - 1, list_max dps + 1)%R /\
  xlim (ax1 (snd outcome)) = Some (t1 - D, t1) /\
  xlim (ax2 (snd outcome)) = Some (t1 - D, t1) /\
  xlim (ax3 (snd outcome)) = Some (t1 - D, t1) /\
  xlim (ax4 (snd outcome)) = Some (t1 - D, t1).
Proof.
  intros Hinv Hread buffer D start Hshown temps avgs rhs ahs dps outcome.
  set (mid := after_append t1 r (snd (note_start_time t1 self))).
  assert (Hmid : invariant mid).
  { apply invariant_after_append, invariant_start, Hinv. }
  assert (Hdata : data mid = data buffer).
  { apply after_append_data, keeps_data_start. }
  apply data_fields in Hdata.
  destruct Hdata as (_ & Hrange & E1 & E2 & E3 & E4 & E5 & E6).
  assert (HD : time_range buffer = D).
  { destruct r as [[[temp rh] ah] dp]. reflexivity. }
  assert (Hout : outcome =
            (Ok tt, with_axes (set_xlim (t1 - D) t1) (set_xlim (t1 - D) t1)
                      (set_xlim (t1 - D) t1) (set_xlim (t1 - D) t1)
                      (rescaled start mid))).
  { subst outcome. rewrite (update_plot_success input t1 t2 r self Hread). fold mid.
    unfold bind at 1. rewrite adjust_spec by apply Hmid.
    unfold bind, get, modify. cbv beta iota zeta.
    change (time_range (rescaled (t2 - time_range mid) mid)) with (time_range mid).
    rewrite Hrange, HD. reflexivity. }
  rewrite Hout. unfold rescaled. rewrite E1, E2, E3, E4, E5, E6.
  fold temps avgs rhs ahs dps.
  assert (Hbuf : invariant buffer) by (apply invariant_after_append, Hinv).
  destruct Hbuf as ((A1 & A2 & A3 & A4 & A5) & _).
  assert (Hne : forall series : deque R,
             deque_len series = deque_len (timestamps buffer) ->
             nonempty (visible series (timestamps buffer) start) = true).
  { intros series Hlen. apply nonempty_true. intros Hnil. apply Hshown.
    apply length_zero_iff_nil. unfold visible_timestamps.
    rewrite <- (visible_length series) by exact Hlen. rewrite Hnil. reflexivity. }
  unfold temp_limits, rh_limits, ah_limits, dp_limits.
  subst temps rhs ahs dps. rewrite !Hne by assumption.
  repeat split.
Qed.

(** C7: whichever of the five options is selected, [update_time_range]
    itself, reading nothing from the serial port, stores the corresponding
    duration (1, 5, 20 minutes, 1 hour, 4 hours) and sets the x range of all
    four charts to [[now - duration, now]], whether or not the rescaling that
    follows returns normally. *)
Theorem selection_narrows_at_once (self : InteractivePlot) (index : Z)
    (now adjust_time : datetime) :
  0 <= index <= 4 ->
  let duration := nth (Z.to_nat index) selector_durations 0 in
  let self' := snd (update_time_range index now adjust_time self) in
  time_range self' = duration /\
  xlim (ax1 self') = Some (now - duration, now) /\
  xlim (ax2 self') = Some (now - duration, now) /\
  xlim (ax3 self') = Some (now - duration, now) /\
  xlim (ax4 self') = Some (now - duration, now).
Proof.
  intros Hindex duration self'.
  assert (Hd : index_time_range index = duration).
  { subst duration.
    assert (H : index = 0 \/ index = 1 \/ index = 2 \/ index = 3 \/ index = 4) by lia.
    destruct H as [-> | [-> | [-> | [-> | ->]]]]; reflexivity. }
  pose proof (update_time_range_data index now adjust_time self) as Hdata.
  apply data_fields in Hdata. destruct Hdata as (_ & Hrange & _).
  fold self' in Hrange. simpl in Hrange. rewrite Hd in Hrange.
  split; [ exact Hrange |].
  assert (Hx : xlims self' =
            (Some (now - duration, now), Some (now - duration, now),
             Some (now - duration, now), Some (now - duration, now))).
  { subst self'. unfold update_time_range, bind at 1 2 3, modify at 1 2, get at 1.
    cbv beta iota. rewrite keeps_xlims_adjust. unfold xlims. simpl.
    rewrite Hd. reflexivity. }
  unfold xlims in Hx. injection Hx as -> -> -> ->. repeat split.
Qed.

(** ** Dew point *)

(** C8: for [rh > 0], and wherever the two divisions of the formula are
    defined, [calculate_dew_point] returns the Magnus approximation with
    [a = 17.27] and [b = 237.7]: [b * alpha / (a - alpha)] for
    [alpha = a * temp / (b + temp) + ln (rh / 100)]. *)
Theorem dew_point_magnus (temp rh : R) :
  (0 < rh)%R ->
  let a := 17.27%R in
  let b := 237.7%R in
  let alpha := ((a * temp) / (b + temp) + ln (rh / 100))%R in
  (b + temp)%R <> 0%R ->
  (a - alpha)%R <> 0%R ->
  calculate_dew_point temp rh = Ok ((b * alpha) / (a - alpha))%R.
Proof.
  intros Hrh a b alpha Hden1 Hden2.
  unfold calculate_dew_point, Py.div, Py.log, rbind.
  destruct (Req_dec_T (237.7 + temp) 0) as [E | _]; [ contradiction |].
  destruct (Rlt_dec 0 (rh / 100.0)) as [_ | N]; [| exfalso; apply N; lra ].
  replace (rh / 100.0)%R with (rh / 100)%R by lra.
  fold a b alpha.
  destruct (Req_dec_T (a - alpha) 0) as [E | _]; [ contradiction |].
  reflexivity.
Qed.

(** Where a division of the formula is not defined the call raises. *)
Lemma dew_point_undefined (temp rh : R) :
  (0 < rh)%R ->
  let a := 17.27%R in
  let b := 237.7%R in
  let alpha := ((a * temp) / (b + temp) + ln (rh / 100))%R in
  (b + temp)%R = 0%R \/ (a - alpha)%R = 0%R ->
  calculate_dew_point temp rh = Raise ZeroDivisionError.
Proof.
  intros Hrh a b alpha Hzero.
  unfold calculate_dew_point, Py.div, Py.log, rbind.
  destruct (Req_dec_T (237.7 + temp) 0) as [_ | Hden1]; [ reflexivity |].
  destruct (Rlt_dec 0 (rh / 100.0)) as [_ | N]; [| exfalso; apply N; lra ].
  replace (rh / 100.0)%R with (rh / 100)%R by lra.
  fold a b alpha.
  destruct (Req_dec_T (a - alpha) 0) as [_ | Hden2]; [ reflexivity |].
  destruct Hzero; contradiction.
Qed.

(** A non-positive humidity is a domain error of [math.log]. *)
Lemma dew_point_domain_error (temp rh : R) :
  (rh <= 0)%R -> (237.7 + temp)%R <> 0%R ->
  calculate_dew_point temp rh = Raise ValueError.
Proof.
  intros Hrh Hden. unfold calculate_dew_point, Py.div, Py.log, rbind.
  destruct (Req_dec_T (237.7 + temp) 0) as [E | _]; [ contradiction |].
  destruct (Rlt_dec 0 (rh / 100.0)) as [P | _]; [ exfalso; lra | reflexivity ].
Qed.

(** ** Lines whose numeric fields do not parse *)

(** C1, as the code has it: a line of four fields whose temperature or
    humidity field [float] rejects makes [update_plot] raise [ValueError];
    nothing has been appended at that point and the whole state is as
    before, but the tick is not skipped: the exception leaves the handler. *)
Theorem nonnumeric_field_raises (self : InteractivePlot) (text : string)
    (f1 f2 f3 f4 : string) (t1 t2 : datetime) :
  Py.split_comma (Py.strip text) = [f1; f2; f3; f4] ->
  py_float f2 = None \/ py_float f3 = None ->
  update_plot (Line text) t1 t2 self = (Raise ValueError, self).
Proof.
  intros Hparts Hbad. unfold update_plot. rewrite Hparts.
  unfold bind at 1, lift at 1.
  destruct (py_float f2) as [temp |]; [| reflexivity ]. simpl float_of. cbv iota beta.
  unfold bind at 1, lift at 1.
  destruct Hbad as [Hbad | Hbad]; [ discriminate |]. rewrite Hbad. reflexivity.
Qed.

(** A line with another number of fields is skipped. *)
Lemma wrong_field_count_skipped (self : InteractivePlot) (text : string)
    (t1 t2 : datetime) :
  length (Py.split_comma (Py.strip text)) <> 4%nat ->
  update_plot (Line text) t1 t2 self = (Ok tt, self).
Proof.
  intros Hlen. unfold update_plot.
  destruct (Py.split_comma (Py.strip text)) as [| f1 [| f2 [| f3 [| f4 [| f5 rest]]]]];
    try reflexivity.
  exfalso. apply Hlen. reflexivity.
Qed.

(** ** More on the two physical quantities *)

(** X1: at the two temperatures that cancel a divisor, -243.5 (line 22,
    inner division) and -273.15 (outer division),
    [calculate_absolute_humidity] raises [ZeroDivisionError], whatever the
    humidity. *)
Theorem absolute_humidity_poles (temp rh : R) :
  temp = (-243.5)%R \/ temp = (-273.15)%R ->
  calculate_absolute_humidity temp rh = Raise ZeroDivisionError.
Proof.
  intros H. unfold calculate_absolute_humidity, Py.div, rbind.
  destruct (Req_dec_T (temp + 243.5) 0) as [_ | N1]; [ reflexivity |].
  destruct (Req_dec_T (273.15 + temp) 0) as [_ | N2]; [ reflexivity |].
  exfalso. lra.
Qed.

(** X6: the failures of [calculate_dew_point]: at the pole -237.7 the first
    division raises [ZeroDivisionError] before the humidity is looked at;
    elsewhere a humidity that is zero or negative is a [ValueError] of
    [math.log]. *)
Theorem dew_point_errors (temp rh : R) :
  (temp = (-237.7)%R -> calculate_dew_point temp rh = Raise ZeroDivisionError) /\
  (temp <> (-237.7)%R -> (rh <= 0)%R -> calculate_dew_point temp rh = Raise ValueError).
Proof.
  unfold calculate_dew_point, Py.div, Py.log, rbind. split.
  - intros ->.
    destruct (Req_dec_T (237.7 + -237.7) 0) as [_ | N]; [ reflexivity |].
    exfalso. apply N. lra.
  - intros Hpole Hrh.
    destruct (Req_dec_T (237.7 + temp) 0) as [E | _]; [ exfalso; lra |].
    destruct (Rlt_dec 0 (rh / 100.0)) as [P | _]; [ exfalso; lra | reflexivity ].
Qed.

(** ** What a tick does to the state *)

Lemma split_comma_length (s : string) :
  length (Py.split_comma s) = S (count_commas s).
Proof.
  induction s as [| c rest IH]; simpl.
  - reflexivity.
  - destruct (Ascii.eqb c ","); simpl.
    + rewrite IH. reflexivity.
    + destruct (Py.split_comma rest) as [| part parts]; simpl in *; [ discriminate | exact IH ].
Qed.

(** X9: a line whose text, once stripped, does not hold exactly three commas
    is skipped: [update_plot] returns normally and the state is untouched. *)
Theorem other_comma_count_skipped (self : InteractivePlot) (text : string)
    (t1 t2 : datetime) :
  count_commas (Py.strip text) <> 3%nat ->
  update_plot (Line text) t1 t2 self = (Ok tt, self).
Proof.
  intros Hcount. apply wrong_field_count_skipped.
  rewrite split_comma_length. lia.
Qed.

Lemma update_plot_none (input : serial_input) (t1 t2 : datetime)
    (self : InteractivePlot) :
  tick_reading input = None ->
  snd (update_plot input t1 t2 self) = self \/
  snd (update_plot input t1 t2 self) = snd (note_start_time t1 self).
Proof.
  intros Hnone.
  remember (update_plot input t1 t2 self) as out eqn:Hout.
  revert Hnone. unfold update_plot in Hout. unfold tick_reading.
  destruct input as [| | text]; try (subst out; left; reflexivity).
  destruct (Py.split_comma (Py.strip text)) as [| f1 [| f2 [| f3 [| f4 [| f5 rest]]]]];
    try (subst out; left; reflexivity).
  unfold bind at 1, lift at 1 in Hout.
  destruct (py_float f2) as [temp |]; [| subst out; left; reflexivity ].
  simpl float_of in Hout. cbv iota beta in Hout.
  unfold bind at 1, lift at 1 in Hout.
  destruct (py_float f3) as [rh |]; [| subst out; left; reflexivity ].
  simpl float_of in Hout. cbv iota beta in Hout.
  unfold bind at 1 in Hout.
  destruct (note_start_time t1 self) as [[[] | e] s1] eqn:Es;
    [| unfold note_start_time, modify in Es; discriminate ].
  unfold bind at 1, lift at 1 in Hout.
  destruct (calculate_absolute_humidity temp rh) as [ah | e];
    [| subst out; right; reflexivity ].
  unfold bind at 1, lift at 1 in Hout.
  destruct (calculate_dew_point temp rh) as [dp | e];
    [| subst out; right; reflexivity ].
  discriminate.
Qed.

Lemma update_plot_some (input : serial_input) (t1 t2 : datetime)
    (r : R * R * R * R) (self : InteractivePlot) :
  invariant self ->
  tick_reading input = Some r ->
  update_plot input t1 t2 self =
  (Ok tt,
   let lims := set_xlim (t1 - time_range self) t1 in
   with_axes lims lims lims lims
     (rescaled (t2 - time_range self)
        (after_append t1 r (snd (note_start_time t1 self))))).
Proof.
  intros Hinv Hread.
  rewrite (update_plot_success input t1 t2 r self Hread).
  set (mid := after_append t1 r (snd (note_start_time t1 self))).
  assert (Hmid : invariant mid) by (apply invariant_after_append, invariant_start, Hinv).
  assert (Hrange : time_range mid = time_range self).
  { pose proof (after_append_data t1 r self (snd (note_start_time t1 self))
                  (keeps_data_start t1 self)) as Hd.
    apply data_fields in Hd. destruct Hd as (_ & Hd & _). fold mid in Hd. rewrite Hd.
    destruct r as [[[temp rh] ah] dp]. reflexivity. }
  unfold bind at 1. rewrite adjust_spec by apply Hmid.
  unfold bind, get, modify. cbv beta iota zeta.
  change (time_range (rescaled (t2 - time_range mid) mid)) with (time_range mid).
  rewrite Hrange. reflexivity.
Qed.

(** X7: a tick whose line yields no reading (no data, bytes that do not
    decode, a field count other than four, a field [float] rejects, a
    formula that raises) leaves the state as it was, whether it returns or
    raises: nothing is appended, no axis limit and no range is touched; the
    one field that may change is [start_time], set by lines 105 and 106 when
    it was still [None]. *)
Theorem tick_without_reading_keeps_state (self : InteractivePlot)
    (input : serial_input) (t1 t2 : datetime) :
  tick_reading input = None ->
  let after := snd (update_plot input t1 t2 self) in
  after = self \/
  (start_time self = None /\ after = with_start_time (Some t1) self).
Proof.
  intros Hnone after. subst after.
  destruct (update_plot_none input t1 t2 self Hnone) as [H | H].
  - left. exact H.
  - rewrite H. unfold note_start_time, modify. simpl.
    destruct (start_time self) eqn:E; [ left | right; split ]; reflexivity.
Qed.

Lemma absolute_humidity_above_pole (temp rh : R) :
  (-243.5 < temp)%R ->
  exists ah, calculate_absolute_humidity temp rh = Ok ah.
Proof.
  intros H. unfold calculate_absolute_humidity, Py.div, rbind.
  destruct (Req_dec_T (temp + 243.5) 0) as [E | _]; [ exfalso; lra |].
  destruct (Req_dec_T (273.15 + temp) 0) as [E | _]; [ exfalso; lra |].
  eexists. reflexivity.
Qed.

(** X8: a line of four fields whose temperature parses to a number above
    -243.5 other than -237.7 and whose humidity parses to zero or less makes
    [update_plot] raise [ValueError] from [math.log] at line 109:
    [start_time] has been set if it was [None], nothing has been appended
    and no axis has been touched. *)
Theorem nonpositive_humidity_raises (self : InteractivePlot) (text : string)
    (f1 f2 f3 f4 : string) (temp rh : R) (t1 t2 : datetime) :
  Py.split_comma (Py.strip text) = [f1; f2; f3; f4] ->
  py_float f2 = Some temp ->
  py_float f3 = Some rh ->
  (rh <= 0)%R ->
  (-243.5 < temp)%R ->
  temp <> (-237.7)%R ->
  update_plot (Line text) t1 t2 self =
  (Raise ValueError, snd (note_start_time t1 self)).
Proof.
  intros Hparts Htemp Hrh Hle Habove Hpole.
  unfold update_plot. rewrite Hparts.
  unfold bind at 1, lift at 1. rewrite Htemp. simpl float_of. cbv iota beta.
  unfold bind at 1, lift at 1. rewrite Hrh. simpl float_of. cbv iota beta.
  unfold bind at 1.
  destruct (note_start_time t1 self) as [[[] | e] s1] eqn:Es;
    [| unfold note_start_time, modify in Es; discriminate ].
  unfold bind at 1, lift at 1.
  destruct (absolute_humidity_above_pole temp rh Habove) as (ah & ->).
  unfold bind at 1, lift at 1.
  rewrite (dew_point_domain_error temp rh Hle) by lra.
  reflexivity.
Qed.

(** ** [start_time] and the selected range along a run *)

Lemma keeps_start_ret {A : Type} (a : A) : keeps_start (ret a).
Proof. intros self. reflexivity. Qed.

Lemma keeps_start_lift {A : Type} (r : result A) : keeps_start (lift r).
Proof. intros self. reflexivity. Qed.

Lemma keeps_start_get : keeps_start get.
Proof. intros self. reflexivity. Qed.

Lemma keeps_start_axes (f1 f2 f3 f4 : axis -> axis) :
  keeps_start (modify (with_axes f1 f2 f3 f4)).
Proof. intros self. reflexivity. Qed.

Lemma keeps_start_range (d : timedelta) : keeps_start (modify (with_time_range d)).
Proof. intros self. reflexivity. Qed.

Lemma keeps_start_push_reading (t : datetime) (temp rh ah dp : R) :
  keeps_start (push_reading t temp rh ah dp).
Proof. intros self. reflexivity. Qed.

Lemma keeps_start_push_average (t : datetime) (temp : R) :
  keeps_start (push_average t temp).
Proof. intros self. reflexivity. Qed.

Lemma keeps_start_bind {A B : Type} (m : M A) (k : A -> M B) :
  keeps_start m -> (forall a, keeps_start (k a)) -> keeps_start (bind m k).
Proof.
  intros Hm Hk self. unfold bind. specialize (Hm self).
  destruct (m self) as [[a | e] self']; simpl in *.
  - rewrite Hk. exact Hm.
  - exact Hm.
Qed.

Create HintDb sframe.

#[local] Hint Resolve keeps_start_ret keeps_start_lift keeps_start_get
  keeps_start_axes keeps_start_range keeps_start_push_reading
  keeps_start_push_average keeps_start_bind : sframe.

Lemma keeps_start_adjust (t : datetime) : keeps_start (adjust_y_axis_ranges t).
Proof.
  unfold adjust_y_axis_ranges, adjust_temp_axis, adjust_rh_axis, adjust_ah_axis,
    adjust_dp_axis.
  apply keeps_start_bind; [ auto with sframe |]. intros self. cbv zeta.
  repeat (apply keeps_start_bind; [| intros ? ]);
    match goal with
    | |- keeps_start (if ?b then _ else _) => destruct b
    end; auto 12 with sframe.
Qed.

#[local] Hint Resolve keeps_start_adjust : sframe.

Lemma keeps_start_update_time_range (index : Z) (t1 t2 : datetime) :
  keeps_start (update_time_range index t1 t2).
Proof. unfold update_time_range. auto 12 with sframe. Qed.

Lemma start_time_after_tick (input : serial_input) (t1 t2 : datetime)
    (self : InteractivePlot) :
  start_time (snd (update_plot input t1 t2 self)) =
  match start_time self with
  | Some t => Some t
  | None => if fields_parse input then Some t1 else None
  end.
Proof.
  assert (Hsame : forall s : InteractivePlot,
            start_time s = match start_time s with Some t => Some t | None => None end)
    by (intros s; destruct (start_time s); reflexivity).
  unfold update_plot, fields_parse.
  destruct input as [| | text]; try apply Hsame.
  destruct (Py.split_comma (Py.strip text)) as [| f1 [| f2 [| f3 [| f4 [| f5 rest]]]]];
    try apply Hsame.
  unfold bind at 1, lift at 1.
  destruct (py_float f2) as [temp |]; [| apply Hsame ]. simpl float_of. cbv iota beta.
  unfold bind at 1, lift at 1.
  destruct (py_float f3) as [rh |]; [| apply Hsame ].
  simpl float_of. cbv iota beta.
  match goal with
  | |- start_time (snd (bind (note_start_time t1) ?k self)) = _ =>
      change (bind (note_start_time t1) k self)
        with (k tt (snd (note_start_time t1 self)));
      transitivity (start_time (snd (note_start_time t1 self)));
        [ generalize (snd (note_start_time t1 self)); intros s;
          apply (keeps_start_bind (lift (calculate_absolute_humidity temp rh)));
          [ auto with sframe | intros ah; auto 20 with sframe ]
        |]
  end.
  unfold note_start_time, modify. simpl.
  destruct (start_time self) eqn:E; [ exact E | reflexivity ].
Qed.

Lemma first_parsed_app (evs evs' : list event) :
  first_parsed (evs ++ evs') =
  match first_parsed evs with
  | Some t => Some t
  | None => first_parsed evs'
  end.
Proof.
  induction evs as [| [input t1 t2 | index t1 t2] evs IH]; simpl.
  - reflexivity.
  - destruct (fields_parse input); [ reflexivity | exact IH ].
  - exact IH.
Qed.

(** X10: along every run [start_time] is [None] until a tick gets past the
    two [float] calls, takes the clock value of the first tick that does
    (whether or not that tick went on to append), and never changes again. *)
Theorem start_time_is_first_parsed (evs evs' : list event) :
  start_time (run evs) = first_parsed evs /\
  (forall t, start_time (run evs) = Some t -> start_time (run (evs ++ evs')) = Some t).
Proof.
  assert (Hrun : forall l, start_time (run l) = first_parsed l).
  { intros l. induction l as [| ev l IH] using rev_ind.
    - reflexivity.
    - rewrite run_snoc, first_parsed_app, <- IH. unfold step.
      destruct ev as [input t1 t2 | index t1 t2]; simpl handle.
      + rewrite start_time_after_tick. simpl.
        destruct (start_time (run l)); [ reflexivity |].
        destruct (fields_parse input); reflexivity.
      + rewrite keeps_start_update_time_range. simpl.
        destruct (start_time (run l)); reflexivity. }
  split; [ apply Hrun |].
  intros t Ht. rewrite Hrun in *. rewrite first_parsed_app, Ht. reflexivity.
Qed.

Lemma selected_app (evs evs' : list event) :
  forall current,
  selected (evs ++ evs') current = selected evs' (selected evs current).
Proof.
  induction evs as [| [input t1 t2 | index t1 t2] evs IH]; intros current; simpl.
  - reflexivity.
  - apply IH.
  - apply IH.
Qed.

Lemma time_range_after_step (self : InteractivePlot) (ev : event) :
  time_range (step self ev) = selected [ev] (time_range self).
Proof.
  unfold step. destruct ev as [input t1 t2 | index t1 t2]; simpl handle; simpl selected.
  - pose proof (update_plot_data input t1 t2 self) as Hd. apply data_fields in Hd.
    destruct Hd as (_ & -> & _).
    destruct (tick_reading input) as [[[[temp rh] ah] dp] |]; reflexivity.
  - pose proof (update_time_range_data index t1 t2 self) as Hd. apply data_fields in Hd.
    destruct Hd as (_ & -> & _). reflexivity.
Qed.

(** X18: the range in force after any run is the one of the last selection
    event, four hours when there has been none, and always one of the five
    durations of the selector: ticks never change it. *)
Theorem time_range_is_last_selection (evs : list event) :
  time_range (run evs) = selected evs (td_hours 4) /\
  In (time_range (run evs)) selector_durations.
Proof.
  split; [| apply invariant_run ].
  induction evs as [| ev evs IH] using rev_ind.
  - reflexivity.
  - rewrite run_snoc, selected_app, time_range_after_step, IH. reflexivity.
Qed.

(** ** Rescaling and selection *)

(** X14: [adjust_y_axis_ranges] writes y limits and nothing else: in any
    state, aligned or not, and whether it returns or raises, the six series,
    their capacity, the selected range, [start_time] and the x limits of the
    four axes are as before. *)
Theorem adjust_touches_only_y_limits (self : InteractivePlot) (T : datetime) :
  let after := snd (adjust_y_axis_ranges T self) in
  data after = data self /\
  xlims after = xlims self /\
  start_time after = start_time self.
Proof.
  intros after. subst after. split; [| split ].
  - apply keeps_data_adjust.
  - apply keeps_xlims_adjust.
  - apply keeps_start_adjust.
Qed.

Lemma rescaled_data (start : datetime) (self : InteractivePlot) :
  data (rescaled start self) = data self.
Proof. reflexivity. Qed.

Lemma limits_idempotent (f : axis -> axis) :
  f = keep \/ (exists lo hi, f = set_ylim lo hi) -> forall ax, f (f ax) = f ax.
Proof.
  intros [-> | (lo & hi & ->)] ax; reflexivity.
Qed.

Lemma rescaled_idempotent (start : datetime) (self : InteractivePlot) :
  rescaled start (rescaled start self) = rescaled start self.
Proof.
  unfold rescaled at 1.
  change (timestamps (rescaled start self)) with (timestamps self).
  change (temperatures (rescaled start self)) with (temperatures self).
  change (temp_avg (rescaled start self)) with (temp_avg self).
  change (rel_humidities (rescaled start self)) with (rel_humidities self).
  change (abs_humidities (rescaled start self)) with (abs_humidities self).
  change (dew_points (rescaled start self)) with (dew_points self).
  unfold rescaled, with_axes. cbn [max_points timestamps temperatures temp_avg
    rel_humidities abs_humidities dew_points start_time time_range ax1 ax2 ax3 ax4].
  rewrite !limits_idempotent; [ reflexivity | | | | ].
  - unfold dp_limits. destruct (nonempty _); [ right; eauto | left; reflexivity ].
  - unfold ah_limits. destruct (nonempty _); [ right; eauto | left; reflexivity ].
  - unfold rh_limits. destruct (nonempty _); [ right; eauto | left; reflexivity ].
  - unfold temp_limits. destruct (nonempty _); [ right; eauto | left; reflexivity ].
Qed.

(** X15: [adjust_y_axis_ranges] is repeatable: in every state the event
    loop can reach, a second call with the same clock value has the outcome
    of the first and leaves the state as the first call left it. *)
Theorem adjust_repeatable (evs : list event) (T : datetime) :
  let once := adjust_y_axis_ranges T (run evs) in
  adjust_y_axis_ranges T (snd once) = once.
Proof.
  intros once.
  destruct (invariant_run evs) as (Hal & _).
  assert (Honce : once = (Ok tt, rescaled (T - time_range (run evs)) (run evs)))
    by (apply adjust_spec; exact Hal).
  rewrite Honce. simpl snd.
  rewrite adjust_spec.
  - change (time_range (rescaled (T - time_range (run evs)) (run evs)))
      with (time_range (run evs)).
    rewrite rescaled_idempotent. reflexivity.
  - apply (invariant_data (run evs)); [ apply rescaled_data | apply invariant_run ].
Qed.

(** X17: when every visible relative humidity lies between 0 and 100, lines
    165 to 167 give the second axis a range [[lo, hi]] with
    [0 <= lo < hi <= 100] that holds every one of them. *)
Theorem humidity_range_holds_percentages (self : InteractivePlot) (rhs : list R) :
  rhs <> [] ->
  (forall v, In v rhs -> (0 <= v <= 100)%R) ->
  exists lo hi,
    ylim (ax2 (snd (adjust_rh_axis rhs self))) = Some (lo, hi) /\
    (0 <= lo)%R /\ (lo < hi)%R /\ (hi <= 100)%R /\
    forall v, In v rhs -> (lo <= v <= hi)%R.
Proof.
  intros Hne Hbounds. rewrite adjust_rh_axis_spec.
  cbn [snd with_axes ax2].
  unfold rh_limits. rewrite (nonempty_true rhs Hne). cbn [set_ylim ylim].
  destruct (list_min_least rhs Hne) as [Hmin_in Hmin].
  destruct (list_max_greatest rhs Hne) as [Hmax_in Hmax].
  pose proof (Hbounds _ Hmin_in) as Bmin. pose proof (Hbounds _ Hmax_in) as Bmax.
  pose proof (Hmin _ Hmax_in) as Hord.
  eexists _, _. split; [ reflexivity |].
  split; [ apply Rmax_l |].
  split.
  { unfold Rmax, Rmin.
    destruct (Rle_dec 0 (list_min rhs - 5)), (Rle_dec 100 (list_max rhs + 5)); lra. }
  split; [ apply Rmin_l |].
  intros v Hv. specialize (Hmin v Hv). specialize (Hmax v Hv).
  unfold Rmax, Rmin.
  destruct (Rle_dec 0 (list_min rhs - 5)), (Rle_dec 100 (list_max rhs + 5)); lra.
Qed.

(** X21: a selection, whatever its index and in any state, leaves the six
    series, their capacity and [start_time] as they were, whether
    [update_time_range] returns or raises. *)
Theorem selection_keeps_series (self : InteractivePlot) (index : Z)
    (t1 t2 : datetime) :
  let after := snd (update_time_range index t1 t2 self) in
  max_points after = max_points self /\
  timestamps after = timestamps self /\
  temperatures after = temperatures self /\
  temp_avg after = temp_avg self /\
  rel_humidities after = rel_humidities self /\
  abs_humidities after = abs_humidities self /\
  dew_points after = dew_points self /\
  start_time after = start_time self.
Proof.
  intros after.
  pose proof (update_time_range_data index t1 t2 self) as Hd.
  apply data_fields in Hd. destruct Hd as (H0 & _ & H1 & H2 & H3 & H4 & H5 & H6).
  repeat split; try assumption. apply keeps_start_update_time_range.
Qed.

(** ** The shared x range *)

Lemma xlims_after_select (index : Z) (t1 t2 : datetime) (self : InteractivePlot) :
  let lims := Some (t1 - index_time_range index, t1) in
  xlims (snd (update_time_range index t1 t2 self)) = (lims, lims, lims, lims).
Proof.
  unfold update_time_range, bind at 1 2 3, modify at 1 2, get at 1.
  cbv beta iota zeta. rewrite keeps_xlims_adjust. reflexivity.
Qed.

Lemma xlims_after_append (input : serial_input) (t1 t2 : datetime)
    (r : R * R * R * R) (self : InteractivePlot) :
  invariant self ->
  tick_reading input = Some r ->
  let lims := Some (t1 - time_range self, t1) in
  xlims (snd (update_plot input t1 t2 self)) = (lims, lims, lims, lims).
Proof.
  intros Hinv Hread. rewrite (update_plot_some input t1 t2 r self Hinv Hread).
  reflexivity.
Qed.

Lemma xlims_without_append (input : serial_input) (t1 t2 : datetime)
    (self : InteractivePlot) :
  tick_reading input = None ->
  xlims (snd (update_plot input t1 t2 self)) = xlims self.
Proof.
  intros Hnone. destruct (update_plot_none input t1 t2 self Hnone) as [-> | ->].
  - reflexivity.
  - unfold note_start_time, modify. simpl. destruct (start_time self); reflexivity.
Qed.

(** X19: in every reachable state the four axes carry the same x limits,
    and once set their width is the range in force: the x range is always
    [[t - D, t]] for the selected [D] and the clock value [t] of the handler
    that set it last. *)
Theorem x_range_shared (evs : list event) :
  let self := run evs in
  xlim (ax2 self) = xlim (ax1 self) /\
  xlim (ax3 self) = xlim (ax1 self) /\
  xlim (ax4 self) = xlim (ax1 self) /\
  forall lo hi, xlim (ax1 self) = Some (lo, hi) -> hi - lo = time_range self.
Proof.
  cbv zeta.
  assert (H : exists x, xlims (run evs) = (x, x, x, x) /\
                        forall lo hi, x = Some (lo, hi) -> hi - lo = time_range (run evs)).
  { induction evs as [| ev evs IH] using rev_ind.
    - exists None. split; [ reflexivity | discriminate ].
    - destruct IH as (x & Hx & Hw). rewrite run_snoc.
      pose proof (time_range_after_step (run evs) ev) as Hrange.
      unfold step in *. destruct ev as [input t1 t2 | index t1 t2]; simpl handle in *;
        simpl selected in Hrange.
      + destruct (tick_reading input) as [r |] eqn:Hread.
        * exists (Some (t1 - time_range (run evs), t1)). split.
          -- apply (xlims_after_append input t1 t2 r); [ apply invariant_run | exact Hread ].
          -- intros lo hi [= <- <-]. rewrite Hrange. lia.
        * exists x. split.
          -- rewrite xlims_without_append by exact Hread. exact Hx.
          -- intros lo hi E. rewrite Hrange. apply Hw, E.
      + exists (Some (t1 - index_time_range index, t1)). split.
        * apply xlims_after_select.
        * intros lo hi [= <- <-]. rewrite Hrange. lia. }
  destruct H as (x & Hx & Hw). unfold xlims in Hx.
  injection Hx as -> -> -> ->. repeat split. exact Hw.
Qed.

(** X20: a tick that appends stores its reading as the newest item of each
    of the five series it appends to, and the buffer grows by one item until
    it holds [4 * 60 * 60], after which its size stays. *)
Theorem newest_row_is_last (self : InteractivePlot) (input : serial_input)
    (t1 t2 : datetime) (temp rh ah dp : R) :
  invariant self ->
  tick_reading input = Some (temp, rh, ah, dp) ->
  let self' := step self (Tick input t1 t2) in
  last (items (timestamps self')) 0 = t1 /\
  last (items (temperatures self')) 0%R = temp /\
  last (items (rel_humidities self')) 0%R = rh /\
  last (items (abs_humidities self')) 0%R = ah /\
  last (items (dew_points self')) 0%R = dp /\
  deque_len (timestamps self') =
    (if (deque_len (timestamps self) <? 4 * 60 * 60)%nat
     then S (deque_len (timestamps self))
     else deque_len (timestamps self)).
Proof.
  intros Hinv Hread self'.
  pose proof (update_plot_data input t1 t2 self) as Hd. rewrite Hread in Hd.
  apply data_fields in Hd. destruct Hd as (_ & _ & E1 & E2 & _ & E4 & E5 & E6).
  subst self'. unfold step, handle. rewrite E1, E2, E4, E5, E6.
  destruct (after_append_fields t1 temp rh ah dp self) as (-> & -> & -> & -> & -> & _).
  destruct Hinv as (_ & Hcap & _). destruct Hcap as (C1 & C2 & C3 & C4 & C5 & C6 & C7).
  rewrite deque_append_len, C1, C7.
  repeat split; apply deque_append_last; rewrite ?C1, ?C2, ?C4, ?C5, ?C6, C7; lia.
Qed.

(** ** Order of the buffered timestamps *)

Lemma sorted_snoc (xs : list Z) (x : Z) :
  StronglySorted Z.le xs -> Forall (fun y => y <= x) xs ->
  StronglySorted Z.le (xs ++ [x]).
Proof.
  induction xs as [| y ys IH]; intros Hs Hall; simpl.
  - constructor; constructor.
  - inversion Hs as [| ? ? Hs' Hle]; subst. inversion Hall as [| ? ? Hy Hall']; subst.
    constructor.
    + apply IH; assumption.
    + apply Forall_app. split; [ exact Hle | constructor; [ exact Hy | constructor ] ].
Qed.

Lemma sorted_tl (xs : list Z) :
  StronglySorted Z.le xs -> StronglySorted Z.le (tl xs).
Proof.
  intros Hs. destruct xs as [| y ys]; [ exact Hs |].
  inversion Hs; assumption.
Qed.

Lemma sorted_snoc_inv (xs : list Z) (x : Z) :
  StronglySorted Z.le (xs ++ [x]) ->
  StronglySorted Z.le xs /\ Forall (fun y => y <= x) xs.
Proof.
  induction xs as [| y ys IH]; simpl; intros Hs.
  - split; constructor.
  - inversion Hs as [| ? ? Hs' Hle]; subst. destruct (IH Hs') as [Hs'' Hall].
    apply Forall_app in Hle. destruct Hle as [Hle Hx].
    split; constructor; try assumption.
    inversion Hx; assumption.
Qed.

Lemma tick_times_app (evs evs' : list event) :
  tick_times (evs ++ evs') = tick_times evs ++ tick_times evs'.
Proof.
  induction evs as [| [input t1 t2 | index t1 t2] evs IH]; simpl.
  - reflexivity.
  - rewrite IH. reflexivity.
  - exact IH.
Qed.

Lemma deque_append_items {A : Type} (d : deque A) (x : A) :
  items (deque_append d x) = items d ++ [x] \/
  items (deque_append d x) = tl (items d ++ [x]).
Proof.
  unfold deque_append. destruct (length (items d) <? maxlen d)%nat; [ left | right ]; reflexivity.
Qed.

Lemma in_tl {A : Type} (x : A) (xs : list A) : In x (tl xs) -> In x xs.
Proof. destruct xs; simpl; auto. Qed.

(** X13: if the clock values read by the ticks never go back, the buffered
    timestamps are in non-decreasing order in every reachable state. *)
Theorem timestamps_sorted (evs : list event) :
  StronglySorted Z.le (tick_times evs) ->
  StronglySorted Z.le (items (timestamps (run evs))).
Proof.
  intros Hclock.
  assert (H : StronglySorted Z.le (items (timestamps (run evs))) /\
              forall ts, In ts (items (timestamps (run evs))) -> In ts (tick_times evs)).
  { induction evs as [| ev evs IH] using rev_ind.
    - split; [ constructor | intros ts [] ].
    - rewrite tick_times_app in Hclock. rewrite run_snoc, tick_times_app.
      unfold step. destruct ev as [input t1 t2 | index t1 t2]; simpl handle;
        simpl tick_times in *.
      + apply sorted_snoc_inv in Hclock. destruct Hclock as [Hclock Hbefore].
        destruct (IH Hclock) as [Hs Hin].
        pose proof (update_plot_data input t1 t2 (run evs)) as Hd.
        apply data_fields in Hd. destruct Hd as (_ & _ & -> & _).
        destruct (tick_reading input) as [[[[temp rh] ah] dp] |].
        * destruct (after_append_fields t1 temp rh ah dp (run evs)) as (-> & _).
          assert (Hfull : StronglySorted Z.le (items (timestamps (run evs)) ++ [t1])).
          { apply sorted_snoc; [ exact Hs |]. apply Forall_forall. intros ts Hts.
            rewrite Forall_forall in Hbefore. apply Hbefore, Hin, Hts. }
          assert (Hmem : forall ts, In ts (items (timestamps (run evs)) ++ [t1]) ->
                                    In ts (tick_times evs ++ [t1])).
          { intros ts Hts. apply in_app_or in Hts. apply in_or_app.
            destruct Hts as [Hts | Hts]; [ left; apply Hin, Hts | right; exact Hts ]. }
          destruct (deque_append_items (timestamps (run evs)) t1) as [-> | ->].
          -- split; assumption.
          -- split; [ apply sorted_tl, Hfull | intros ts Hts; apply Hmem, in_tl, Hts ].
        * split; [ exact Hs |]. intros ts Hts. apply in_or_app. left. apply Hin, Hts.
      + rewrite app_nil_r in *. destruct (IH Hclock) as [Hs Hin].
        pose proof (update_time_range_data index t1 t2 (run evs)) as Hd.
        apply data_fields in Hd. destruct Hd as (_ & _ & -> & _).
        split; assumption. }
  apply H.
Qed.

(** ** The window as the range grows *)



Lemma filter_all {A : Type} (f : A -> bool) (xs : list A) :
  (forall x, In x xs -> f x = true) -> filter f xs = xs.
Proof.
  induction xs as [| x xs IH]; intros H; simpl.
  - reflexivity.
  - rewrite (H x (or_introl eq_refl)). f_equal. apply IH.
    intros y Hy. apply H. right. exact Hy.
Qed.

Lemma zip_fst {A B : Type} (xs : list A) :
  forall ys : list B, length xs = length ys -> map fst (Py.zip xs ys) = xs.
Proof.
  unfold Py.zip.
  induction xs as [| x xs IH]; intros [| y ys] Hlen; simpl in *; try discriminate.
  - reflexivity.
  - rewrite IH by congruence. reflexivity.
Qed.

(** X22: when no buffered timestamp is older than the window start, the
    visible part of every aligned series is the whole series: nothing is
    hidden. *)
Theorem recent_buffer_fully_visible (self : InteractivePlot) (T : datetime) :
  aligned self ->
  let start := T - time_range self in
  (forall ts, In ts (items (timestamps self)) -> start <= ts) ->
  visible_timestamps self start = items (timestamps self) /\
  visible (temperatures self) (timestamps self) start = items (temperatures self) /\
  visible (temp_avg self) (timestamps self) start = items (temp_avg self) /\
  visible (rel_humidities self) (timestamps self) start = items (rel_humidities self) /\
  visible (abs_humidities self) (timestamps self) start = items (abs_humidities self) /\
  visible (dew_points self) (timestamps self) start = items (dew_points self).
Proof.
  intros (A1 & A2 & A3 & A4 & A5) start Hrecent.
  assert (Hvis : forall series : deque R,
            deque_len series = deque_len (timestamps self) ->
            visible series (timestamps self) start = items series).
  { intros series Hlen. unfold visible. rewrite filter_all.
    - apply zip_fst. exact Hlen.
    - intros p Hp. apply Z.leb_le. apply Hrecent. apply (in_zip_stamp (items series)). exact Hp. }
  split.
  - unfold visible_timestamps. apply filter_all. intros ts Hts. apply Z.leb_le, Hrecent, Hts.
  - repeat split; apply Hvis; assumption.
Qed.

End Handlers.

(** ** The handlers on sample inputs, with decimal literals for [float] *)

Lemma sample_parts :
  Py.split_comma (Py.strip sample_line) = ["12:00:00"; "21.5"; "60.0"; "0"]%string.
Proof. reflexivity. Qed.

Lemma sample_temp : decimal_float "21.5" = Some 21.5%R.
Proof. reflexivity. Qed.

Lemma sample_rh : decimal_float "60.0" = Some 60.0%R.
Proof. reflexivity. Qed.

Lemma sample_absolute_humidity :
  calculate_absolute_humidity 21.5 60.0 = Ok sample_ah.
Proof.
  unfold calculate_absolute_humidity, Py.div, rbind.
  destruct (Req_dec_T (21.5 + 243.5) 0) as [E | _]; [ exfalso; lra |].
  destruct (Req_dec_T (273.15 + 21.5) 0) as [E | _]; [ exfalso; lra |].
  reflexivity.
Qed.

Lemma sample_alpha_negative : (sample_alpha < 2)%R.
Proof.
  unfold sample_alpha.
  assert (Hln : (ln (60.0 / 100.0) < 0)%R).
  { rewrite <- ln_1. apply ln_increasing; lra. }
  assert (Hq : ((17.27 * 21.5) / (237.7 + 21.5) < 2)%R).
  { apply (Rmult_lt_reg_r (237.7 + 21.5)); [ lra |].
    unfold Rdiv. rewrite Rmult_assoc, Rinv_l by lra. lra. }
  lra.
Qed.

Lemma sample_dew_point : calculate_dew_point 21.5 60.0 = Ok sample_dp.
Proof.
  unfold calculate_dew_point, Py.div, Py.log, rbind.
  destruct (Req_dec_T (237.7 + 21.5) 0) as [E | _]; [ exfalso; lra |].
  destruct (Rlt_dec 0 (60.0 / 100.0)) as [_ | N]; [| exfalso; apply N; lra ].
  fold sample_alpha.
  destruct (Req_dec_T (17.27 - sample_alpha) 0) as [E | _].
  - exfalso. pose proof sample_alpha_negative. lra.
  - reflexivity.
Qed.

Lemma sample_reading :
  tick_reading decimal_float (Line sample_line) = Some (21.5, 60.0, sample_ah, sample_dp)%R.
Proof.
  unfold tick_reading. rewrite sample_parts, sample_temp, sample_rh.
  rewrite sample_absolute_humidity, sample_dew_point. reflexivity.
Qed.

Lemma malformed_parts :
  Py.split_comma (Py.strip malformed_line) = ["12:00:00"; "abc"; "55"; "x"]%string.
Proof. reflexivity. Qed.

(** The line of section 8 raises and leaves the state as it was. *)
Lemma malformed_line_raises :
  update_plot decimal_float (Line malformed_line) (td_seconds 100) (td_seconds 100 + 7) sample_plot
  = (Raise ValueError, sample_plot).
Proof.
  apply (nonnumeric_field_raises decimal_float sample_plot malformed_line
           "12:00:00" "abc" "55" "x").
  - reflexivity.
  - left. reflexivity.
Defined.

Lemma lone_reading_average_first_tick :
  let self' := step decimal_float init (Tick (Line sample_line) (td_seconds 100) (td_seconds 100 + 7)) in
  deque_len (temp_avg self') = deque_len (timestamps self') /\
  last (items (temp_avg self')) 0%R = 21.5%R.
Proof.
  apply (lone_reading_average decimal_float init (Line sample_line)
           (td_seconds 100) (td_seconds 100 + 7) 21.5 60.0 sample_ah sample_dp).
  - apply invariant_init.
  - apply sample_reading.
  - simpl. intros ts [].
Defined.

Lemma window_filter_exact_sample :
  aligned sample_plot /\ 0 <= time_range sample_plot /\
  window_exact sample_plot (td_seconds 89) (temperatures sample_plot).
Proof.
  assert (Hal : aligned sample_plot) by (repeat split).
  assert (Hpos : 0 <= time_range sample_plot)
    by (cbv [sample_plot time_range td_minutes td_seconds]; lia).
  split; [ exact Hal |]. split; [ exact Hpos |].
  exact (proj1 (proj2 (window_filter_exact sample_plot (td_seconds 89) Hal Hpos))).
Defined.

Lemma empty_window_sample :
  adjust_y_axis_ranges (td_seconds 1000) sample_plot = (Ok tt, sample_plot).
Proof.
  apply (empty_window_keeps_ranges sample_plot (td_seconds 1000)).
  - repeat split.
  - left. reflexivity.
Defined.

Lemma selection_four_hours_to_one_minute :
  let self' := snd (update_time_range 0 (td_seconds 100) (td_seconds 100 + 7) init) in
  time_range init = td_hours 4 /\
  time_range self' = td_minutes 1 /\
  xlim (ax1 self') = Some (td_seconds 100 - td_minutes 1, td_seconds 100) /\
  xlim (ax2 self') = Some (td_seconds 100 - td_minutes 1, td_seconds 100) /\
  xlim (ax3 self') = Some (td_seconds 100 - td_minutes 1, td_seconds 100) /\
  xlim (ax4 self') = Some (td_seconds 100 - td_minutes 1, td_seconds 100).
Proof.
  split; [ reflexivity |].
  apply (selection_narrows_at_once init 0 (td_seconds 100) (td_seconds 100 + 7)). lia.
Defined.

Lemma dew_point_saturated_at_zero :
  calculate_dew_point 0 100 = Ok ((237.7 * (17.27 * 0 / (237.7 + 0) + ln (100 / 100)))
                                  / (17.27 - (17.27 * 0 / (237.7 + 0) + ln (100 / 100))))%R.
Proof.
  assert (Hln : ln (100 / 100) = 0%R).
  { replace (100 / 100)%R with 1%R by lra. apply ln_1. }
  apply (dew_point_magnus 0 100).
  - lra.
  - lra.
  - rewrite Hln. lra.
Defined.

Lemma axis_ranges_first_tick :
  let now := td_seconds 100 in
  let outcome := update_plot decimal_float (Line sample_line) now (now + 7) init in
  fst outcome = Ok tt /\
  ylim (ax2 (snd outcome)) = Some (Rmax 0 (60.0 - 5), Rmin 100 (60.0 + 5))%R /\
  ylim (ax3 (snd outcome)) = Some (sample_ah - 0.5, sample_ah + 0.5)%R /\
  ylim (ax4 (snd outcome)) = Some (sample_dp - 1, sample_dp + 1)%R /\
  xlim (ax1 (snd outcome)) = Some (now - td_hours 4, now).
Proof.
  intros now outcome.
  assert (Hshown :
    visible_timestamps (after_append now (21.5, 60.0, sample_ah, sample_dp)%R init)
      (now + 7 - time_range init) <> []) by discriminate.
  destruct (axis_ranges_after_tick decimal_float init (Line sample_line) now (now + 7)
              (21.5, 60.0, sample_ah, sample_dp)%R
              invariant_init sample_reading Hshown)
    as (H0 & _ & H2 & H3 & H4 & H5 & _).
  repeat split; assumption.
Defined.

(** ** Small runs of the definitions *)

Example deque_append_room :
  deque_append (mk_deque 3 [1; 2]) 3 = mk_deque 3 [1; 2; 3].
Proof. reflexivity. Qed.

Example deque_append_full :
  deque_append (mk_deque 3 [1; 2; 3]) 4 = mk_deque 3 [2; 3; 4].
Proof. reflexivity. Qed.

Example split_three_fields :
  Py.split_comma (Py.strip "12:00:00,21.5,60.0") = ["12:00:00"; "21.5"; "60.0"]%string.
Proof. reflexivity. Qed.

Example short_line_skipped :
  update_plot decimal_float (Line "12:00:00,21.5,60.0") (td_seconds 100) (td_seconds 100 + 7)
    sample_plot
  = (Ok tt, sample_plot).
Proof. apply wrong_field_count_skipped. discriminate. Qed.

Example no_data_tick :
  update_plot decimal_float NoData (td_seconds 100) (td_seconds 100 + 7) sample_plot
  = (Ok tt, sample_plot).
Proof. reflexivity. Qed.

Example decimal_float_rejects :
  decimal_float "abc" = None /\ decimal_float "1__0" = None /\
  decimal_float "" = None /\ decimal_float "1e" = None.
Proof. repeat split. Qed.

(** With a one-minute range at call time 89 s the window starts at 29 s: the
    reading stamped 0 s is out, the one stamped 90 s, later than the call
    time, is in. *)
Example sample_window :
  visible_timestamps sample_plot (td_seconds 89 - time_range sample_plot)
    = [td_seconds 30; td_seconds 90] /\
  visible (temperatures sample_plot) (timestamps sample_plot)
    (td_seconds 89 - time_range sample_plot) = [22; 21]%R.
Proof. split; reflexivity. Qed.

Example first_tick_buffer :
  let self' := step decimal_float init (Tick (Line sample_line) (td_seconds 100) (td_seconds 100 + 7)) in
  items (timestamps self') = [td_seconds 100] /\
  items (temperatures self') = [21.5%R] /\
  items (rel_humidities self') = [60.0%R] /\
  items (abs_humidities self') = [sample_ah] /\
  items (dew_points self') = [sample_dp].
Proof.
  cbv zeta.
  pose proof (update_plot_data decimal_float (Line sample_line) (td_seconds 100)
                (td_seconds 100 + 7) init) as Hd.
  rewrite sample_reading in Hd. apply data_fields in Hd.
  destruct Hd as (_ & _ & E1 & E2 & _ & E4 & E5 & E6).
  unfold step, handle. rewrite E1, E2, E4, E5, E6.
  destruct (after_append_fields (td_seconds 100) 21.5 60.0 sample_ah sample_dp init)
    as (-> & -> & -> & -> & -> & _).
  repeat split.
Qed.

(** ** Further properties on sample inputs *)

Lemma three_field_line_skipped :
  update_plot decimal_float (Line "12:00:00,21.5,60.0") (td_seconds 100) (td_seconds 100 + 7)
    sample_plot
  = (Ok tt, sample_plot).
Proof.
  apply (other_comma_count_skipped decimal_float sample_plot "12:00:00,21.5,60.0").
  vm_compute. discriminate.
Defined.

Lemma timestamps_sorted_sample :
  StronglySorted Z.le
    (items (timestamps
       (run decimal_float
          [Tick (Line sample_line) (td_seconds 100) (td_seconds 100 + 7);
           Tick NoData (td_seconds 101) (td_seconds 101);
           Select 0 (td_seconds 101) (td_seconds 101 + 3);
           Tick (Line sample_line) (td_seconds 102) (td_seconds 102 + 7)]))).
Proof.
  apply timestamps_sorted. cbn [tick_times].
  repeat constructor; unfold td_seconds; lia.
Defined.

Lemma newest_row_first_tick :
  let self' := step decimal_float init (Tick (Line sample_line) (td_seconds 100) (td_seconds 100 + 7)) in
  last (items (timestamps self')) 0 = td_seconds 100 /\
  last (items (temperatures self')) 0%R = 21.5%R /\
  last (items (rel_humidities self')) 0%R = 60.0%R /\
  last (items (abs_humidities self')) 0%R = sample_ah /\
  last (items (dew_points self')) 0%R = sample_dp /\
  deque_len (timestamps self') =
    (if (deque_len (timestamps init) <? 4 * 60 * 60)%nat
     then S (deque_len (timestamps init))
     else deque_len (timestamps init)).
Proof.
  exact (newest_row_is_last decimal_float init (Line sample_line)
           (td_seconds 100) (td_seconds 100 + 7) 21.5 60.0 sample_ah sample_dp
           invariant_init sample_reading).
Defined.


Lemma recent_buffer_sample :
  visible (temperatures sample_plot) (timestamps sample_plot)
    (td_seconds 50 - time_range sample_plot) = items (temperatures sample_plot).
Proof.
  assert (Hal : aligned sample_plot) by (repeat split).
  apply (recent_buffer_fully_visible sample_plot (td_seconds 50) Hal).
  cbn [sample_plot timestamps items time_range]. unfold td_minutes, td_seconds.
  intros ts [<- | [<- | [<- | []]]]; lia.
Defined.

(** At the pole of the first division the call does not return a value:
    the formula of C8 has none there. *)
Lemma dew_point_pole_raises :
  (0 < 50)%R /\
  calculate_dew_point (-237.7) 50 = Raise ZeroDivisionError /\
  forall dp, calculate_dew_point (-237.7) 50 <> Ok dp.
Proof.
  assert (H : calculate_dew_point (-237.7) 50 = Raise ZeroDivisionError).
  { unfold calculate_dew_point, Py.div, rbind.
    destruct (Req_dec_T (237.7 + -237.7) 0) as [_ | N]; [ reflexivity |].
    exfalso. apply N. lra. }
  split; [ lra |]. split; [ exact H |].
  intros dp E. rewrite H in E. discriminate.
Qed.

Lemma absolute_humidity_pole_sample :
  calculate_absolute_humidity (-243.5) 50 = Raise ZeroDivisionError.
Proof.
  apply (absolute_humidity_poles (-243.5) 50). left. reflexivity.
Defined.

Lemma malformed_line_keeps_state :
  let after := snd (update_plot decimal_float (Line malformed_line)
                      (td_seconds 100) (td_seconds 100 + 7) sample_plot) in
  after = sample_plot \/
  (start_time sample_plot = None /\
   after = with_start_time (Some (td_seconds 100)) sample_plot).
Proof.
  apply (tick_without_reading_keeps_state decimal_float sample_plot (Line malformed_line)).
  reflexivity.
Defined.

Lemma zero_humidity_line_raises :
  update_plot decimal_float (Line "12:00:00,21.5,0,x") (td_seconds 100) (td_seconds 100 + 7)
    sample_plot
  = (Raise ValueError, snd (note_start_time (td_seconds 100) sample_plot)).
Proof.
  apply (nonpositive_humidity_raises decimal_float sample_plot "12:00:00,21.5,0,x"
           "12:00:00" "21.5" "0" "x" 21.5 0).
  - reflexivity.
  - reflexivity.
  - reflexivity.
  - lra.
  - lra.
  - lra.
Defined.

Lemma humidity_range_sample :
  exists lo hi,
    ylim (ax2 (snd (adjust_rh_axis [56; 57]%R sample_plot))) = Some (lo, hi) /\
    (0 <= lo)%R /\ (lo < hi)%R /\ (hi <= 100)%R /\
    forall v, In v [56; 57]%R -> (lo <= v <= hi)%R.
Proof.
  apply (humidity_range_holds_percentages sample_plot [56; 57]%R).
  - discriminate.
  - intros v [<- | [<- | []]]; lra.
Defined.
